(** * TripSmith planner: itinerary composition, validation and costing

    A shallow embedding of [schemas.py] and of the decision logic of
    [planner_agent.py] (class [PlannerAgent]), with the properties the
    design document states about them.

    Modelling conventions.
    - A Python [float] amount (prices, ratings, budgets, hours) is an exact
      rational of [Q]: rounding, infinities and NaN are left out of the
      model.  Equality of amounts is [Qeq] ([==]).
    - A [date] is its proleptic ordinal, a [Z]; [(d2 - d1).days] is the
      difference of the ordinals and [d + timedelta(days=k)] is [d + k].
    - A [datetime] is a date together with the time of day.
    - An exception is a value of [exn]; a call that can raise returns a
      [result].
    - Calls to [log_activity] only write to the log; they are left out,
      except in [validate_itinerary], whose log line names the rule that
      failed. *)

From Stdlib Require Import List ZArith QArith String Bool Lia Lqa.
From Stdlib Require Import Permutation Sorted.
Import ListNotations.

Local Open Scope Z_scope.

(** ** Exceptions *)

Inductive exn : Type :=
| ValidationError (field : string)
| ZeroDivisionError.

Inductive result (A : Type) : Type :=
| Ok (a : A)
| Raise (e : exn).

Arguments Ok {A} a.
Arguments Raise {A} e.

Definition bind {A B : Type} (r : result A) (k : A -> result B) : result B :=
  match r with
  | Ok a => k a
  | Raise e => Raise e
  end.

Notation "x <- r ;; k" := (bind r (fun x => k))
  (at level 61, r at next level, right associativity).

(** ** Python builtins used by the planner *)

Definition Qlt_bool (x y : Q) : bool := negb (Qle_bool y x).

(** Truth value of an [Optional[float]]: [None] and [0.0] are false. *)
Definition truthy (o : option Q) : bool :=
  match o with
  | None => false
  | Some q => negb (Qeq_bool q 0)
  end.

(** [range(n)] *)
Definition range (n : Z) : list Z := map Z.of_nat (seq 0 (Z.to_nat n)).

(** [enumerate(l)] *)
Definition enumerate {A : Type} (l : list A) : list (Z * A) :=
  combine (range (Z.of_nat (List.length l))) l.

(** [sorted(l, key=...)]: Python's sort is stable, and an element moves in
    front of another only when its key is strictly smaller.  [ltb a b] is
    [key(a) < key(b)]. *)
Section PySorted.
Context {A : Type} (ltb : A -> A -> bool).

Fixpoint insert (x : A) (l : list A) : list A :=
  match l with
  | [] => [x]
  | y :: l' => if ltb y x then y :: insert x l' else x :: y :: l'
  end.

Fixpoint sorted (l : list A) : list A :=
  match l with
  | [] => []
  | x :: l' => insert x (sorted l')
  end.
End PySorted.

(** ** schemas.py *)

Definition date : Type := Z.

Record datetime : Type := mk_datetime {
  dt_date : date;          (* [.date()] *)
  dt_microseconds : Z      (* time of day *)
}.

Inductive Currency : Type := USD | EUR | GBP | CAD | AUD.

Inductive FlightClass : Type := ECONOMY | PREMIUM_ECONOMY | BUSINESS | FIRST.

Inductive HotelRating : Type := BUDGET | STANDARD | PREMIUM | LUXURY.

Inductive ActivityType : Type :=
| CULTURAL | OUTDOOR | FOOD | SHOPPING | ENTERTAINMENT | HISTORICAL | NATURE.

(** [ActivityType.value] *)
Definition ActivityType_value (c : ActivityType) : string :=
  match c with
  | CULTURAL => "cultural"
  | OUTDOOR => "outdoor"
  | FOOD => "food"
  | SHOPPING => "shopping"
  | ENTERTAINMENT => "entertainment"
  | HISTORICAL => "historical"
  | NATURE => "nature"
  end%string.

Module Flight.
Record t : Type := make {
  airline : string;
  flight_number : string;
  departure_airport : string;
  arrival_airport : string;
  departure_time : datetime;
  arrival_time : datetime;
  duration_minutes : Z;
  price : Q;
  currency : Currency;
  flight_class : FlightClass;
  stops : Z;
  booking_link : option string
}.

(** [validate_duration] and [validate_price] *)
Definition valid (f : t) : bool :=
  (0 <? duration_minutes f) && Qle_bool 0 (price f).
End Flight.

Module Hotel.
Record t : Type := make {
  name : string;
  address : string;
  city : string;
  country : string;
  rating : Q;
  rating_category : HotelRating;
  price_per_night : Q;
  currency : Currency;
  amenities : list string;
  booking_link : option string;
  latitude : option Q;
  longitude : option Q
}.

(** [validate_rating] *)
Definition valid (h : t) : bool :=
  Qle_bool 0 (rating h) && Qle_bool (rating h) 5.
End Hotel.

Module PointOfInterest.
Record t : Type := make {
  name : string;
  description : string;
  category : ActivityType;
  address : option string;
  city : string;
  country : string;
  rating : option Q;
  price_range : option string;
  duration_hours : option Q;
  opening_hours : option string;
  website : option string;
  latitude : option Q;
  longitude : option Q
}.

(** The [ge=0, le=5] bounds of [rating] and [validate_duration] *)
Definition valid (p : t) : bool :=
  match rating p with
  | None => true
  | Some r => Qle_bool 0 r && Qle_bool r 5
  end
  &&
  match duration_hours p with
  | None => true
  | Some d => negb (Qle_bool d 0)
  end.
End PointOfInterest.

(** A [Dict[str, Any]] literal with string values, in insertion order. *)
Definition str_dict : Type := list (string * string).

Module DailySchedule.
Record t : Type := make {
  date : date;
  activities : list PointOfInterest.t;
  free_time_slots : list str_dict;
  notes : option string
}.
End DailySchedule.

Module Itinerary.
Record t : Type := make {
  trip_name : string;
  destination : string;
  start_date : date;
  end_date : date;
  total_days : Z;
  outbound_flight : option Flight.t;
  return_flight : option Flight.t;
  hotels : list Hotel.t;
  daily_schedules : list DailySchedule.t;
  total_budget : option Q;
  currency : Currency;
  created_at : datetime;
  updated_at : datetime
}.

(** [validate_dates]: runs on [end_date], after [start_date] is known. *)
Definition validate_dates (v : date) (start : date) : result date :=
  if v <=? start then Raise (ValidationError "end_date") else Ok v.

(** [validate_total_days]: runs on [total_days] when both dates were
    accepted. *)
Definition validate_total_days (v : Z) (start e : date) : result Z :=
  let expected_days := (e - start) + 1 in
  if negb (v =? expected_days) then Raise (ValidationError "total_days")
  else Ok v.

(** The constructor [Itinerary(...)]: the fields are validated in the
    order of their declaration, and a rejected field raises. *)
Definition init (trip_name destination : string) (start_date end_date : date)
    (total_days : Z) (outbound_flight return_flight : option Flight.t)
    (hotels : list Hotel.t) (daily_schedules : list DailySchedule.t)
    (total_budget : option Q) (currency : Currency) (now : datetime)
  : result t :=
  e <- validate_dates end_date start_date ;;
  d <- validate_total_days total_days start_date e ;;
  Ok (make trip_name destination start_date e d outbound_flight
           return_flight hotels daily_schedules total_budget currency
           now now).

(** What the two validators accept, as a predicate on a built record. *)
Definition valid (it : t) : bool :=
  (start_date it <? end_date it)
  && (total_days it =? (end_date it - start_date it) + 1).
End Itinerary.

Module SearchRequest.
Record t : Type := make {
  destination : string;
  start_date : date;
  end_date : date;
  budget : option Q;
  currency : Currency;
  travelers : Z;
  preferences : list (string * string)
}.

(** [validate_travelers] *)
Definition valid (r : t) : bool := 1 <=? travelers r.
End SearchRequest.

(** ** planner_agent.py *)

(** The dictionary [pois_by_category]: category name to POIs, the keys in
    the order of their first insertion. *)
Definition poi_dict : Type := list (string * list PointOfInterest.t).

(** [key in d] *)
Definition dict_mem {V : Type} (key : string) (d : list (string * V)) : bool :=
  existsb (fun kv => String.eqb (fst kv) key) d.

(** [d[key]], for a key of [d] *)
Fixpoint dict_get {V : Type} (key : string) (d : list (string * list V))
  : list V :=
  match d with
  | [] => []
  | (k, v) :: d' => if String.eqb k key then v else dict_get key d'
  end.

(** [d[key] = []] for a key that is not in [d] yet *)
Definition dict_new {V : Type} (key : string) (d : list (string * list V))
  : list (string * list V) :=
  d ++ [(key, [])].

(** [d[key].append(x)] *)
Fixpoint dict_append {V : Type} (key : string) (x : V)
    (d : list (string * list V)) : list (string * list V) :=
  match d with
  | [] => []
  | (k, v) :: d' =>
      if String.eqb k key then (k, v ++ [x]) :: d'
      else (k, v) :: dict_append key x d'
  end.

(** [list(d.keys())] *)
Definition dict_keys {V : Type} (d : list (string * V)) : list string :=
  map fst d.

Module PlannerAgent.

(** [(a.price, a.duration_minutes) < (b.price, b.duration_minutes)]: tuples
    are compared on their first components unless these are equal. *)
Definition flight_key_lt (a b : Flight.t) : bool :=
  if Qeq_bool (Flight.price a) (Flight.price b)
  then Flight.duration_minutes a <? Flight.duration_minutes b
  else Qlt_bool (Flight.price a) (Flight.price b).

(** [select_best_flights]; the pair is (["outbound"], ["return"]). *)
Definition select_best_flights (flights : list Flight.t)
    (request : SearchRequest.t) : option Flight.t * option Flight.t :=
  match flights with
  | [] => (None, None)
  | _ =>
      let sorted_flights := sorted flight_key_lt flights in
      let outbound_flight := nth_error sorted_flights 0 in
      let return_flight :=
        if (1 <? Z.of_nat (List.length sorted_flights))
        then nth_error sorted_flights 1
        else outbound_flight in
      (outbound_flight, return_flight)
  end.

(** [(-a.rating, a.price_per_night) < (-b.rating, b.price_per_night)] *)
Definition hotel_key_lt (a b : Hotel.t) : bool :=
  if Qeq_bool (- Hotel.rating a) (- Hotel.rating b)
  then Qlt_bool (Hotel.price_per_night a) (Hotel.price_per_night b)
  else Qlt_bool (- Hotel.rating a) (- Hotel.rating b).

(** The budget filter of [select_best_hotels]; dividing by a zero
    [trip_duration] raises. *)
Definition filter_by_budget (hotels : list Hotel.t) (budget : Q)
    (trip_duration : Z) : result (list Hotel.t) :=
  let max_hotel_budget := (budget * (4 # 10))%Q in
  if trip_duration =? 0 then Raise ZeroDivisionError
  else
    let max_per_night := (max_hotel_budget / inject_Z trip_duration)%Q in
    Ok (filter (fun h => Qle_bool (Hotel.price_per_night h) max_per_night)
               hotels).

Definition select_best_hotels (hotels : list Hotel.t)
    (request : SearchRequest.t) (trip_duration : Z) : result (list Hotel.t) :=
  match hotels with
  | [] => Ok []
  | _ =>
      hotels' <-
        match SearchRequest.budget request with
        | Some b =>
            if truthy (Some b) then filter_by_budget hotels b trip_duration
            else Ok hotels
        | None => Ok hotels
        end ;;
      let sorted_hotels := sorted hotel_key_lt hotels' in
      let selected_hotels :=
        if 2 <=? Z.of_nat (List.length sorted_hotels)
        then firstn 2 sorted_hotels
        else sorted_hotels in
      Ok selected_hotels
  end.

(** The loop that fills [pois_by_category]. *)
Definition categorize (pois : list PointOfInterest.t) : poi_dict :=
  fold_left
    (fun d poi =>
       let category := ActivityType_value (PointOfInterest.category poi) in
       let d := if negb (dict_mem category d) then dict_new category d
                else d in
       dict_append category poi d)
    pois [].

(** [for category in cats: if category in d: extend(d[category][:1]); break] *)
Fixpoint first_available (cats : list string) (d : poi_dict)
  : list PointOfInterest.t :=
  match cats with
  | [] => []
  | category :: cats' =>
      if dict_mem category d then firstn 1 (dict_get category d)
      else first_available cats' d
  end.

Definition select_activities_for_day (pois : list PointOfInterest.t)
    (day trip_duration : Z) : list PointOfInterest.t :=
  match pois with
  | [] => []
  | _ =>
      let pois_by_category := categorize pois in
      let selected_activities :=
        if day =? 0 then
          first_available ["food"; "entertainment"; "cultural"]%string
                          pois_by_category
        else if day =? trip_duration - 1 then
          first_available ["shopping"; "food"; "cultural"]%string
                          pois_by_category
        else
          let categories := dict_keys pois_by_category in
          flat_map
            (fun ic : Z * string =>
               if fst ic <? 2
               then firstn 1 (dict_get (snd ic) pois_by_category)
               else [])
            (enumerate categories) in
      firstn 3 selected_activities
  end.

(** [activity.duration_hours or 2.0] *)
Definition duration_or_default (activity : PointOfInterest.t) : Q :=
  match PointOfInterest.duration_hours activity with
  | Some d => if Qeq_bool d 0 then 2 else d
  | None => 2
  end.

(** [sum(...)] *)
Definition total_activity_time (activities : list PointOfInterest.t) : Q :=
  fold_left (fun acc activity => (acc + duration_or_default activity)%Q)
            activities 0%Q.

Definition afternoon_slot : str_dict :=
  [("start_time", "2:00 PM"); ("end_time", "4:00 PM");
   ("description", "Free time for relaxation or exploration")]%string.

Definition evening_slot : str_dict :=
  [("start_time", "6:00 PM"); ("end_time", "8:00 PM");
   ("description", "Evening free time")]%string.

Definition create_free_time_slots (activities : list PointOfInterest.t)
  : list str_dict :=
  let total := total_activity_time activities in
  if Qlt_bool total 8 then
    let remaining_time := (8 - total)%Q in
    (if Qle_bool 2 remaining_time then [afternoon_slot] else [])
    ++ (if Qle_bool 4 remaining_time then [evening_slot] else [])
  else [].

Definition generate_day_notes (activities : list PointOfInterest.t)
    (day trip_duration : Z) : string :=
  if day =? 0 then "Arrival day - light activities to get oriented"%string
  else if day =? trip_duration - 1
  then "Departure day - packing and final activities"%string
  else
    let activity_types :=
      map (fun a => ActivityType_value (PointOfInterest.category a))
          activities in
    ("Full day of " ++ String.concat ", " activity_types ++ " activities")%string.

Definition create_daily_schedules (request : SearchRequest.t)
    (pois : list PointOfInterest.t) (trip_duration : Z)
  : list DailySchedule.t :=
  map
    (fun day =>
       let current_date := SearchRequest.start_date request + day in
       let day_activities := select_activities_for_day pois day trip_duration in
       DailySchedule.make current_date day_activities
         (create_free_time_slots day_activities)
         (Some (generate_day_notes day_activities day trip_duration)))
    (range trip_duration).

(** [create_itinerary]; [now] is the clock read for the two timestamps.
    An exception of the body is logged and raised again. *)
Definition create_itinerary (request : SearchRequest.t)
    (flights : list Flight.t) (hotels : list Hotel.t)
    (pois : list PointOfInterest.t) (now : datetime) : result Itinerary.t :=
  let trip_duration :=
    SearchRequest.end_date request - SearchRequest.start_date request in
  let selected_flights := select_best_flights flights request in
  selected_hotels <- select_best_hotels hotels request trip_duration ;;
  let daily_schedules := create_daily_schedules request pois trip_duration in
  Itinerary.init
    ("Trip to " ++ SearchRequest.destination request)%string
    (SearchRequest.destination request)
    (SearchRequest.start_date request)
    (SearchRequest.end_date request)
    trip_duration
    (fst selected_flights)
    (snd selected_flights)
    selected_hotels
    daily_schedules
    (SearchRequest.budget request)
    (SearchRequest.currency request)
    now.

Definition activity_cost (activity : PointOfInterest.t) : Q :=
  match PointOfInterest.price_range activity with
  | Some r =>
      if String.eqb r "$" then 20
      else if String.eqb r "$$" then 50
      else if String.eqb r "$$$" then 100
      else 0
  | None => 0
  end.

Definition calculate_total_cost (itinerary : Itinerary.t) : Q :=
  let total_cost := 0%Q in
  let total_cost :=
    match Itinerary.outbound_flight itinerary with
    | Some f => (total_cost + Flight.price f)%Q
    | None => total_cost
    end in
  let total_cost :=
    match Itinerary.return_flight itinerary with
    | Some f => (total_cost + Flight.price f)%Q
    | None => total_cost
    end in
  let total_cost :=
    fold_left
      (fun acc hotel =>
         (acc + Hotel.price_per_night hotel
                * inject_Z (Itinerary.total_days itinerary))%Q)
      (Itinerary.hotels itinerary) total_cost in
  fold_left
    (fun acc daily_schedule =>
       fold_left (fun acc activity => (acc + activity_cost activity)%Q)
                 (DailySchedule.activities daily_schedule) acc)
    (Itinerary.daily_schedules itinerary) total_cost.

(** The line [validate_itinerary] writes to the log before it returns. *)
Inductive validation_log : Type :=
| LogNoHotels
| LogFlightDateMismatch
| LogIncompleteSchedules
| LogBudgetExceeded (total_cost total_budget : Q)
| LogPassed.

(** The body of [validate_itinerary] with the line it logs; nothing in it
    raises, so the [except] branch is never taken. *)
Definition validate_itinerary_logged (itinerary : Itinerary.t)
  : validation_log * bool :=
  match Itinerary.hotels itinerary with
  | [] => (LogNoHotels, false)
  | _ =>
      if match Itinerary.outbound_flight itinerary with
         | Some f =>
             let flight_date := dt_date (Flight.departure_time f) in
             negb (flight_date =? Itinerary.start_date itinerary)
         | None => false
         end
      then (LogFlightDateMismatch, false)
      else if negb (Z.of_nat (List.length (Itinerary.daily_schedules itinerary))
                    =? Itinerary.total_days itinerary)
      then (LogIncompleteSchedules, false)
      else
        match Itinerary.total_budget itinerary with
        | Some b =>
            if truthy (Some b) then
              let total_cost := calculate_total_cost itinerary in
              if Qlt_bool b total_cost
              then (LogBudgetExceeded total_cost b, false)
              else (LogPassed, true)
            else (LogPassed, true)
        | None => (LogPassed, true)
        end
  end.

Definition validate_itinerary (itinerary : Itinerary.t) : bool :=
  snd (validate_itinerary_logged itinerary).

End PlannerAgent.

(** * Orders and reference definitions used in the statements *)

(** [(price, duration_minutes)], compared as Python compares tuples. *)
Definition flight_key_le (a b : Flight.t) : Prop :=
  (Flight.price a < Flight.price b)%Q
  \/ ((Flight.price a == Flight.price b)%Q
      /\ Flight.duration_minutes a <= Flight.duration_minutes b).

(** Rating descending, then price ascending. *)
Definition hotel_key_le (a b : Hotel.t) : Prop :=
  (Hotel.rating b < Hotel.rating a)%Q
  \/ ((Hotel.rating a == Hotel.rating b)%Q
      /\ (Hotel.price_per_night a <= Hotel.price_per_night b)%Q).


(** The per-night ceiling of the design document: [0.4 * budget / days]. *)
Definition per_night_ceiling (budget : Q) (trip_days : Z) : Q :=
  ((4 # 10) * budget / inject_Z trip_days)%Q.

Definition within_ceiling (budget : Q) (trip_days : Z) (h : Hotel.t) : bool :=
  Qle_bool (Hotel.price_per_night h) (per_night_ceiling budget trip_days).

(** A request that differs from [r] in its budget only. *)
Definition set_budget (r : SearchRequest.t) (budget : option Q)
  : SearchRequest.t :=
  SearchRequest.make (SearchRequest.destination r) (SearchRequest.start_date r)
    (SearchRequest.end_date r) budget (SearchRequest.currency r)
    (SearchRequest.travelers r) (SearchRequest.preferences r).

(** An itinerary that differs from [it] in its budget only. *)
Definition set_total_budget (it : Itinerary.t) (total_budget : option Q)
  : Itinerary.t :=
  Itinerary.make (Itinerary.trip_name it) (Itinerary.destination it)
    (Itinerary.start_date it) (Itinerary.end_date it) (Itinerary.total_days it)
    (Itinerary.outbound_flight it) (Itinerary.return_flight it)
    (Itinerary.hotels it) (Itinerary.daily_schedules it) total_budget
    (Itinerary.currency it) (Itinerary.created_at it) (Itinerary.updated_at it).

(** ** Sample data *)

Definition sample_request (start_date end_date : date) (budget : option Q)
  : SearchRequest.t :=
  SearchRequest.make "Los Angeles" start_date end_date budget USD 1 [].

Definition sample_hotel (name : string) (rating price_per_night : Q)
  : Hotel.t :=
  Hotel.make name "1 Main Street" "Los Angeles" "USA" rating STANDARD
    price_per_night USD [] None None None.

Definition sample_flight (flight_number : string) (day : date)
    (duration_minutes : Z) (price : Q) : Flight.t :=
  Flight.make "Delta" flight_number "JFK" "LAX" (mk_datetime day 0)
    (mk_datetime day 1) duration_minutes price USD ECONOMY 0 None.

Definition sample_poi (name : string) (category : ActivityType)
    (price_range : option string) (duration_hours : option Q)
  : PointOfInterest.t :=
  PointOfInterest.make name "" category None "Los Angeles" "USA" None
    price_range duration_hours None None None None.


(** ** The cost model and the validation rules, as the design states them *)

Definition Qsum (l : list Q) : Q := fold_right Qplus 0%Q l.

Definition price_or_zero (f : option Flight.t) : Q :=
  match f with
  | Some f => Flight.price f
  | None => 0%Q
  end.

Definition tier_amount (price_range : option string) : Q :=
  match price_range with
  | Some "$"%string => 20
  | Some "$$"%string => 50
  | Some "$$$"%string => 100
  | _ => 0
  end%Q.

Definition scheduled_activities (it : Itinerary.t) : list PointOfInterest.t :=
  flat_map DailySchedule.activities (Itinerary.daily_schedules it).

Definition estimated_cost (it : Itinerary.t) : Q :=
  (price_or_zero (Itinerary.outbound_flight it)
   + price_or_zero (Itinerary.return_flight it)
   + Qsum (map (fun h => Hotel.price_per_night h
                         * inject_Z (Itinerary.total_days it))
               (Itinerary.hotels it))
   + Qsum (map (fun a => tier_amount (PointOfInterest.price_range a))
               (scheduled_activities it)))%Q.

(** Rule 1: at least one hotel. *)
Definition rule_hotels (it : Itinerary.t) : Prop :=
  Itinerary.hotels it <> [].

(** Rule 2: an outbound flight departs on the start date. *)
Definition rule_flight_date (it : Itinerary.t) : Prop :=
  forall f, Itinerary.outbound_flight it = Some f ->
            dt_date (Flight.departure_time f) = Itinerary.start_date it.

(** Rule 3: one schedule per day. *)
Definition rule_schedules (it : Itinerary.t) : Prop :=
  Z.of_nat (List.length (Itinerary.daily_schedules it))
  = Itinerary.total_days it.

(** Rule 4 as worded: a budget that is set bounds the cost. *)
Definition rule_budget_set (it : Itinerary.t) : Prop :=
  forall b, Itinerary.total_budget it = Some b ->
            (PlannerAgent.calculate_total_cost it <= b)%Q.

(** Rule 4 as coded: a budget other than zero bounds the cost. *)
Definition rule_budget_nonzero (it : Itinerary.t) : Prop :=
  forall b, Itinerary.total_budget it = Some b -> ~ (b == 0)%Q ->
            (PlannerAgent.calculate_total_cost it <= b)%Q.

(** A two-day stay that the schema accepts, with one hotel and a budget. *)
Definition sample_itinerary (total_budget : option Q) : Itinerary.t :=
  Itinerary.make "Trip to Los Angeles" "Los Angeles" 100 101 2
    (Some (sample_flight "DL100" 100 210 350)) None
    [sample_hotel "Plaza" (9 # 2) 120]
    [DailySchedule.make 100 [] [] None; DailySchedule.make 101 [] [] None]
    total_budget USD (mk_datetime 90 0) (mk_datetime 90 0).


(** ** Free time, as the design states it *)

(** The hours an activity counts for: its duration, or two when absent. *)
Definition claimed_hours (a : PointOfInterest.t) : Q :=
  match PointOfInterest.duration_hours a with
  | Some d => d
  | None => 2%Q
  end.

Definition scheduled_hours (activities : list PointOfInterest.t) : Q :=
  Qsum (map claimed_hours activities).

(** [slot.get(key)] *)
Fixpoint str_dict_get (key : string) (slot : str_dict) : option string :=
  match slot with
  | [] => None
  | (k, v) :: slot' => if String.eqb k key then Some v else str_dict_get key slot'
  end.

(** The start and end labels of a slot. *)
Definition slot_times (slot : str_dict) : option string * option string :=
  (str_dict_get "start_time" slot, str_dict_get "end_time" slot).

Definition afternoon_times : option string * option string :=
  (Some "2:00 PM", Some "4:00 PM")%string.

Definition evening_times : option string * option string :=
  (Some "6:00 PM", Some "8:00 PM")%string.


(** ** Activity selection, as the design states it *)

Definition ActivityType_eqb (a b : ActivityType) : bool :=
  match a, b with
  | CULTURAL, CULTURAL | OUTDOOR, OUTDOOR | FOOD, FOOD
  | SHOPPING, SHOPPING | ENTERTAINMENT, ENTERTAINMENT
  | HISTORICAL, HISTORICAL | NATURE, NATURE => true
  | _, _ => false
  end.

Definition has_category (c : ActivityType) (p : PointOfInterest.t) : bool :=
  ActivityType_eqb (PointOfInterest.category p) c.

(** The first POI of a category, in input order, if there is one. *)
Definition first_of_category (c : ActivityType)
    (pois : list PointOfInterest.t) : list PointOfInterest.t :=
  match find (has_category c) pois with
  | Some p => [p]
  | None => []
  end.

(** The single pick: the first POI of the first category of the priority
    list that has any POI; nothing when none of them has. *)
Fixpoint single_pick (priorities : list ActivityType)
    (pois : list PointOfInterest.t) : list PointOfInterest.t :=
  match priorities with
  | [] => []
  | c :: priorities' =>
      match find (has_category c) pois with
      | Some p => [p]
      | None => single_pick priorities' pois
      end
  end.

(** The distinct elements of a list in the order of their first
    occurrence. *)
Fixpoint first_occurrences {A : Type} (eqb : A -> A -> bool) (l : list A)
  : list A :=
  match l with
  | [] => []
  | x :: l' => x :: filter (fun y => negb (eqb y x)) (first_occurrences eqb l')
  end.

(** The pick of a middle day: the first POI of each of the first two
    categories, in first-occurrence order. *)
Definition middle_pick (pois : list PointOfInterest.t)
  : list PointOfInterest.t :=
  flat_map (fun c => first_of_category c pois)
    (firstn 2 (first_occurrences ActivityType_eqb
                 (map PointOfInterest.category pois))).

(** The dictionary key of a POI. *)
Definition poi_key (p : PointOfInterest.t) : string :=
  ActivityType_value (PointOfInterest.category p).


(** ** Sample candidates *)

Definition sample_flights : list Flight.t :=
  [sample_flight "DL420" 100 225 420; sample_flight "DL350" 100 210 350].

Definition sample_hotels : list Hotel.t :=
  [sample_hotel "Budget Inn" (5 # 2) 65; sample_hotel "Plaza" (9 # 2) 120].

Definition sample_pois : list PointOfInterest.t :=
  [sample_poi "Museum" CULTURAL (Some "$$"%string) (Some (3 # 1));
   sample_poi "Market" SHOPPING None None;
   sample_poi "Cafe" FOOD (Some "$"%string) (Some (1 # 1));
   sample_poi "Gallery" CULTURAL (Some "$$$"%string) None].


(** * The request pipeline *)

(** ** schemas.py: the response envelope *)

Module AgentResponse.
Record t (A : Type) : Type := make {
  agent_name : string;
  success : bool;
  data : option A;
  error_message : option string;
  reasoning : option string;
  timestamp : datetime
}.

Arguments make {A} _ _ _ _ _ _.
Arguments agent_name {A} _.
Arguments success {A} _.
Arguments data {A} _.
Arguments error_message {A} _.
Arguments reasoning {A} _.
Arguments timestamp {A} _.
End AgentResponse.

(** ** base_agent.py *)

Module BaseAgent.

(** [validate_request]: the three checks in order; a failed check logs and
    returns [False].  Nothing in the body raises. *)
Definition validate_request (request : SearchRequest.t) : bool :=
  if String.eqb (SearchRequest.destination request) "" then false
  else if SearchRequest.end_date request <=? SearchRequest.start_date request
  then false
  else if SearchRequest.travelers request <? 1 then false
  else true.

(** [create_response]; [name] is [self.name] and [now] the clock. *)
Definition create_response {A : Type} (name : string) (now : datetime)
    (success : bool) (data : option A) (error_message reasoning : option string)
  : AgentResponse.t A :=
  AgentResponse.make name success data error_message reasoning now.

End BaseAgent.

(** ** planner_agent.py: [process_request] *)

Module PlannerController.

(** [response.data if response.success else []].  A payload of [None] is
    false like the empty list in every test the planner makes on it. *)
Definition candidates {A : Type} (response : AgentResponse.t (list A))
  : list A :=
  if AgentResponse.success response then
    match AgentResponse.data response with
    | Some l => l
    | None => []
    end
  else [].

Section ProcessRequest.
(** [str(e)], the text of an exception. *)
Variable str : exn -> string.

(** [process_request], given the answers of the three search agents.  An
    exception of the body is caught and reported in the response. *)
Definition process_request (request : SearchRequest.t)
    (flight_response : AgentResponse.t (list Flight.t))
    (hotel_response : AgentResponse.t (list Hotel.t))
    (poi_response : AgentResponse.t (list PointOfInterest.t))
    (now : datetime) : AgentResponse.t Itinerary.t :=
  if negb (BaseAgent.validate_request request) then
    BaseAgent.create_response "PlannerAgent" now false None
      (Some "Invalid search request"%string) None
  else
    match PlannerAgent.create_itinerary request
            (candidates flight_response) (candidates hotel_response)
            (candidates poi_response) now with
    | Ok itinerary =>
        let reasoning :=
          ("Created complete itinerary for "
           ++ SearchRequest.destination request
           ++ " with flights, hotels, and activities")%string in
        BaseAgent.create_response "PlannerAgent" now true (Some itinerary)
          None (Some reasoning)
    | Raise e =>
        BaseAgent.create_response "PlannerAgent" now false None
          (Some ("Travel planning error: " ++ str e)%string) None
    end.
End ProcessRequest.

End PlannerController.

(** ** Views used in the statements *)

(** A daily schedule without its date. *)
Definition day_plan (s : DailySchedule.t)
  : list PointOfInterest.t * list str_dict * option string :=
  (DailySchedule.activities s, DailySchedule.free_time_slots s,
   DailySchedule.notes s).

(** The part of the estimated cost that is not flights. *)
Definition stay_cost (it : Itinerary.t) : Q :=
  (Qsum (map (fun h => Hotel.price_per_night h
                       * inject_Z (Itinerary.total_days it))
             (Itinerary.hotels it))
   + Qsum (map (fun a => tier_amount (PointOfInterest.price_range a))
               (scheduled_activities it)))%Q.


(** ** The notes of a day *)

Definition arrival_note : string :=
  "Arrival day - light activities to get oriented".

Definition departure_note : string :=
  "Departure day - packing and final activities".

(** The note of a middle day: the category names of the day's activities,
    separated by a comma and a space. *)
Definition full_day_note (activities : list PointOfInterest.t) : string :=
  ("Full day of "
   ++ String.concat ", " (map poi_key activities)
   ++ " activities")%string.

(** * Properties *)

(** ** Comparisons on amounts *)

Lemma Qlt_bool_iff (x y : Q) : Qlt_bool x y = true <-> (x < y)%Q.
Proof.
  unfold Qlt_bool. rewrite negb_true_iff. split; intro H.
  - apply Qnot_le_lt. intro Hle. apply Qle_bool_iff in Hle. congruence.
  - destruct (Qle_bool y x) eqn:E; trivial.
    apply Qle_bool_iff in E. apply Qle_not_lt in E. contradiction.
Qed.

Lemma Qlt_bool_false_iff (x y : Q) : Qlt_bool x y = false <-> (y <= x)%Q.
Proof.
  unfold Qlt_bool. rewrite negb_false_iff. apply Qle_bool_iff.
Qed.

Lemma Qeq_bool_false_iff (x y : Q) : Qeq_bool x y = false <-> ~ (x == y)%Q.
Proof.
  split.
  - apply Qeq_bool_neq.
  - intro H. destruct (Qeq_bool x y) eqn:E; trivial.
    apply Qeq_bool_iff in E. contradiction.
Qed.

Lemma truthy_Some (b : Q) : truthy (Some b) = true <-> ~ (b == 0)%Q.
Proof.
  simpl. rewrite negb_true_iff. apply Qeq_bool_false_iff.
Qed.

(** ** The sort *)

Section SortedFacts.
Context {A : Type} (ltb : A -> A -> bool) (le : A -> A -> Prop).
Hypothesis ltb_true_le : forall a b, ltb a b = true -> le a b.
Hypothesis ltb_false_le : forall a b, ltb b a = false -> le a b.
Hypothesis le_trans : forall a b c, le a b -> le b c -> le a c.

Lemma insert_perm (x : A) (l : list A) : Permutation (insert ltb x l) (x :: l).
Proof.
  induction l as [|y l IH]; simpl.
  - apply Permutation_refl.
  - destruct (ltb y x).
    + eapply perm_trans; [apply perm_skip, IH | apply perm_swap].
    + apply Permutation_refl.
Qed.

Lemma sorted_perm (l : list A) : Permutation (sorted ltb l) l.
Proof.
  induction l as [|x l IH]; simpl.
  - apply perm_nil.
  - eapply perm_trans; [apply insert_perm | apply perm_skip, IH].
Qed.

Lemma sorted_length (l : list A) : List.length (sorted ltb l) = List.length l.
Proof. apply Permutation_length, sorted_perm. Qed.

Lemma sorted_In (l : list A) (a : A) : In a (sorted ltb l) <-> In a l.
Proof.
  split; apply Permutation_in; [|apply Permutation_sym]; apply sorted_perm.
Qed.

Lemma insert_StronglySorted (x : A) (l : list A) :
  StronglySorted le l -> StronglySorted le (insert ltb x l).
Proof.
  induction 1 as [|y l Hs IH Hy]; simpl.
  - constructor; constructor.
  - destruct (ltb y x) eqn:E.
    + constructor; [exact IH|].
      rewrite Forall_forall in *. intros z Hz.
      apply (Permutation_in _ (insert_perm x l)) in Hz.
      destruct Hz as [<-|Hz]; auto.
    + constructor; [constructor; assumption|].
      constructor; [auto|].
      rewrite Forall_forall in *. intros z Hz. eauto.
Qed.

Lemma sorted_StronglySorted (l : list A) : StronglySorted le (sorted ltb l).
Proof.
  induction l as [|x l IH]; simpl.
  - constructor.
  - apply insert_StronglySorted, IH.
Qed.

(** The head of the sorted list is below every candidate. *)
Lemma sorted_head_le (l : list A) (m : A) (s : list A) :
  sorted ltb l = m :: s -> forall a, In a l -> a = m \/ le m a.
Proof.
  intros E a Ha. apply sorted_In in Ha. rewrite E in Ha.
  pose proof (sorted_StronglySorted l) as Hs. rewrite E in Hs.
  inversion Hs as [|? ? _ Hall]; subst.
  destruct Ha as [->|Ha]; [now left|right].
  rewrite Forall_forall in Hall. auto.
Qed.
End SortedFacts.

Section Stability.
Context {A : Type} (ltb : A -> A -> bool) (p : A -> bool).
Hypothesis p_ties : forall a b, p a = true -> p b = true -> ltb a b = false.

Lemma insert_filter (x : A) (l : list A) :
  filter p (insert ltb x l) = filter p (x :: l).
Proof.
  induction l as [|y l IH]; simpl; trivial.
  destruct (ltb y x) eqn:E; simpl; trivial.
  rewrite IH. simpl.
  destruct (p x) eqn:Px, (p y) eqn:Py; trivial.
  rewrite (p_ties y x Py Px) in E. discriminate.
Qed.

(** Candidates that tie with one another keep their input order. *)
Lemma sorted_stable (l : list A) : filter p (sorted ltb l) = filter p l.
Proof.
  induction l as [|x l IH]; simpl; trivial.
  rewrite insert_filter. simpl. now rewrite IH.
Qed.
End Stability.

(** ** Flight and hotel keys *)

Lemma flight_key_lt_true (a b : Flight.t) :
  PlannerAgent.flight_key_lt a b = true -> flight_key_le a b.
Proof.
  unfold PlannerAgent.flight_key_lt, flight_key_le.
  destruct (Qeq_bool _ _) eqn:E; intro H.
  - right. apply Qeq_bool_iff in E. split; [exact E | lia].
  - left. now apply Qlt_bool_iff.
Qed.

Lemma flight_key_lt_false (a b : Flight.t) :
  PlannerAgent.flight_key_lt b a = false -> flight_key_le a b.
Proof.
  unfold PlannerAgent.flight_key_lt, flight_key_le.
  destruct (Qeq_bool _ _) eqn:E; intro H.
  - right. apply Qeq_bool_iff in E. split; [now symmetry | lia].
  - apply Qlt_bool_false_iff in H. apply Qeq_bool_false_iff in E.
    left. apply Qle_lt_or_eq in H. destruct H as [H|H]; trivial.
    exfalso. apply E. now symmetry.
Qed.

Lemma flight_key_le_trans (a b c : Flight.t) :
  flight_key_le a b -> flight_key_le b c -> flight_key_le a c.
Proof.
  unfold flight_key_le. intros [H1|[H1 D1]] [H2|[H2 D2]].
  - left. lra.
  - left. lra.
  - left. lra.
  - right. split; [lra | lia].
Qed.

Lemma flight_key_le_refl (a : Flight.t) : flight_key_le a a.
Proof. right. split; [reflexivity | lia]. Qed.

Lemma hotel_key_lt_true (a b : Hotel.t) :
  PlannerAgent.hotel_key_lt a b = true -> hotel_key_le a b.
Proof.
  unfold PlannerAgent.hotel_key_lt, hotel_key_le.
  destruct (Qeq_bool _ _) eqn:E; intro H.
  - right. apply Qeq_bool_iff in E. apply Qlt_bool_iff in H.
    split; lra.
  - left. apply Qlt_bool_iff in H. lra.
Qed.

Lemma hotel_key_lt_false (a b : Hotel.t) :
  PlannerAgent.hotel_key_lt b a = false -> hotel_key_le a b.
Proof.
  unfold PlannerAgent.hotel_key_lt, hotel_key_le.
  destruct (Qeq_bool _ _) eqn:E; intro H.
  - right. apply Qeq_bool_iff in E. apply Qlt_bool_false_iff in H.
    split; lra.
  - apply Qlt_bool_false_iff in H. apply Qeq_bool_false_iff in E.
    left. destruct (Qlt_le_dec (Hotel.rating b) (Hotel.rating a)); trivial.
    exfalso. apply E. lra.
Qed.

Lemma hotel_key_le_trans (a b c : Hotel.t) :
  hotel_key_le a b -> hotel_key_le b c -> hotel_key_le a c.
Proof.
  unfold hotel_key_le. intros [H1|[H1 D1]] [H2|[H2 D2]].
  - left. lra.
  - left. lra.
  - left. lra.
  - right. split; lra.
Qed.

Lemma hotel_key_le_refl (a : Hotel.t) : hotel_key_le a a.
Proof. right. split; [reflexivity | apply Qle_refl]. Qed.

Lemma sorted_flights_StronglySorted (flights : list Flight.t) :
  StronglySorted flight_key_le (sorted PlannerAgent.flight_key_lt flights).
Proof.
  apply sorted_StronglySorted.
  - apply flight_key_lt_true.
  - apply flight_key_lt_false.
  - apply flight_key_le_trans.
Qed.

Lemma sorted_hotels_StronglySorted (hotels : list Hotel.t) :
  StronglySorted hotel_key_le (sorted PlannerAgent.hotel_key_lt hotels).
Proof.
  apply sorted_StronglySorted.
  - apply hotel_key_lt_true.
  - apply hotel_key_lt_false.
  - apply hotel_key_le_trans.
Qed.

(** ** Flight selection *)

(** C4.  With no candidate both legs are [None].  Otherwise the outbound
    leg is a candidate whose (price, duration) key is below every
    candidate's; with one candidate the return leg is the outbound leg,
    and with two or more it is the next candidate of the ascending order:
    it is below every candidate left once the outbound and the return leg
    are taken out. *)
Theorem select_best_flights_spec
    (flights : list Flight.t) (request : SearchRequest.t) :
  (flights = [] ->
   PlannerAgent.select_best_flights flights request = (None, None))
  /\ (flights <> [] ->
      exists out ret,
        PlannerAgent.select_best_flights flights request = (Some out, Some ret)
        /\ In out flights
        /\ (forall f, In f flights -> flight_key_le out f)
        /\ (List.length flights = 1%nat -> ret = out)
        /\ ((2 <= List.length flights)%nat ->
            exists rest,
              Permutation (out :: ret :: rest) flights
              /\ flight_key_le out ret
              /\ forall f, In f rest -> flight_key_le ret f)).
Proof.
  split.
  - intros ->. reflexivity.
  - intro Hne.
    pose proof (sorted_perm PlannerAgent.flight_key_lt flights) as Hperm.
    pose proof (sorted_flights_StronglySorted flights) as Hsort.
    pose proof (sorted_length PlannerAgent.flight_key_lt flights) as Hlen.
    unfold PlannerAgent.select_best_flights.
    destruct flights as [|f0 fs]; [congruence|].
    remember (f0 :: fs) as flights eqn:Efl.
    destruct (sorted PlannerAgent.flight_key_lt flights) as [|m s] eqn:Es.
    { subst flights. simpl in Hlen. discriminate. }
    inversion Hsort as [|? ? Hs' Hm]; subst a l.
    rewrite Forall_forall in Hm.
    assert (Hmin : forall f, In f flights -> flight_key_le m f).
    { intros f Hf. apply (Permutation_in _ (Permutation_sym Hperm)) in Hf.
      destruct Hf as [<-|Hf]; [apply flight_key_le_refl | auto]. }
    assert (Hin : In m flights).
    { apply (Permutation_in _ Hperm). now left. }
    destruct s as [|r rest].
    + exists m, m. simpl.
      split; [reflexivity|]. split; [exact Hin|]. split; [exact Hmin|].
      split; [reflexivity|].
      intro H2. simpl in Hlen. lia.
    + exists m, r.
      assert (Hlt : (1 <? Z.of_nat (List.length (m :: r :: rest))) = true).
      { apply Z.ltb_lt. simpl List.length. lia. }
      rewrite Hlt. simpl nth_error.
      split; [reflexivity|]. split; [exact Hin|]. split; [exact Hmin|].
      split.
      * intro H1. simpl in Hlen. lia.
      * intros _. exists rest. split; [exact Hperm|]. split.
        -- apply Hm. now left.
        -- inversion Hs' as [|? ? _ Hr]; subst.
           rewrite Forall_forall in Hr. exact Hr.
Qed.

(** ** Hotel selection *)

Lemma top2_firstn {A : Type} (l : list A) :
  (if 2 <=? Z.of_nat (List.length l) then firstn 2 l else l) = firstn 2 l.
Proof.
  destruct (2 <=? Z.of_nat (List.length l)) eqn:E; trivial.
  apply Z.leb_gt in E. symmetry. apply firstn_all2. lia.
Qed.

Lemma filter_by_budget_ok (hotels : list Hotel.t) (b : Q) (d : Z) :
  d <> 0 ->
  PlannerAgent.filter_by_budget hotels b d
  = Ok (filter (within_ceiling b d) hotels).
Proof.
  intro Hd. unfold PlannerAgent.filter_by_budget.
  destruct (d =? 0) eqn:E; [apply Z.eqb_eq in E; contradiction|].
  f_equal. apply filter_ext. intro h. unfold within_ceiling, per_night_ceiling.
  apply Qleb_comp; [reflexivity|].
  unfold Qdiv. rewrite (Qmult_comm b). reflexivity.
Qed.

Lemma filter_by_budget_zero_days (hotels : list Hotel.t) (b : Q) :
  PlannerAgent.filter_by_budget hotels b 0 = Raise ZeroDivisionError.
Proof. reflexivity. Qed.

(** What [select_best_hotels] returns when the budget is used. *)
Lemma select_best_hotels_budget
    (hotels : list Hotel.t) (request : SearchRequest.t) (d : Z) (b : Q) :
  SearchRequest.budget request = Some b -> ~ (b == 0)%Q -> d <> 0 ->
  PlannerAgent.select_best_hotels hotels request d
  = Ok (firstn 2 (sorted PlannerAgent.hotel_key_lt
                         (filter (within_ceiling b d) hotels))).
Proof.
  intros Hb Hnz Hd. unfold PlannerAgent.select_best_hotels.
  destruct hotels as [|h0 hs]; [reflexivity|].
  rewrite Hb. apply truthy_Some in Hnz. rewrite Hnz.
  rewrite filter_by_budget_ok by assumption.
  unfold bind. now rewrite top2_firstn.
Qed.

(** What [select_best_hotels] returns when the budget is not used. *)
Lemma select_best_hotels_no_budget
    (hotels : list Hotel.t) (request : SearchRequest.t) (d : Z) :
  truthy (SearchRequest.budget request) = false ->
  PlannerAgent.select_best_hotels hotels request d
  = Ok (firstn 2 (sorted PlannerAgent.hotel_key_lt hotels)).
Proof.
  intro Hb. unfold PlannerAgent.select_best_hotels.
  destruct hotels as [|h0 hs]; [reflexivity|].
  destruct (SearchRequest.budget request) as [b|].
  - rewrite Hb. unfold bind. now rewrite top2_firstn.
  - unfold bind. now rewrite top2_firstn.
Qed.

(** The selection never raises for a trip of one day or more. *)
Lemma select_best_hotels_returns
    (hotels : list Hotel.t) (request : SearchRequest.t) (d : Z) :
  d <> 0 ->
  exists selected,
    PlannerAgent.select_best_hotels hotels request d = Ok selected.
Proof.
  intro Hd.
  destruct (truthy (SearchRequest.budget request)) eqn:E.
  - destruct (SearchRequest.budget request) as [b|] eqn:Eb; [|discriminate].
    eexists. apply (select_best_hotels_budget _ _ _ b); trivial.
    now apply truthy_Some.
  - eexists. now apply select_best_hotels_no_budget.
Qed.

Lemma select_best_hotels_length
    (hotels : list Hotel.t) (request : SearchRequest.t) (d : Z)
    (selected : list Hotel.t) :
  PlannerAgent.select_best_hotels hotels request d = Ok selected ->
  (List.length selected <= 2)%nat.
Proof.
  unfold PlannerAgent.select_best_hotels.
  destruct hotels as [|h0 hs]; [intros [= <-]; simpl; lia|].
  match goal with |- context [bind ?r _] => destruct r as [l|e] end;
    unfold bind; [|discriminate].
  rewrite top2_firstn. intro H.
  assert (E : selected = firstn 2 (sorted PlannerAgent.hotel_key_lt l))
    by congruence.
  rewrite E. apply firstn_le_length.
Qed.

Lemma In_firstn {A : Type} (n : nat) (l : list A) (a : A) :
  In a (firstn n l) -> In a l.
Proof.
  intro H. rewrite <- (firstn_skipn n l). apply in_or_app. now left.
Qed.

Lemma within_ceiling_true (b : Q) (d : Z) (h : Hotel.t) :
  within_ceiling b d h = true
  <-> (Hotel.price_per_night h <= per_night_ceiling b d)%Q.
Proof. apply Qle_bool_iff. Qed.

(** C3, as the code has it.  For a non-empty candidate list: when the
    request carries a budget other than zero (and the trip has a length
    other than zero, so that the ceiling exists), the selection is returned,
    none of its hotels costs more per night than [0.4 * budget / days], and
    it is the first two at most of the hotels within the ceiling, ranked by
    rating descending then price ascending; when the budget is absent or
    zero the selection is the first two at most of all the candidates in
    that ranking. *)
Theorem select_best_hotels_spec
    (hotels : list Hotel.t) (request : SearchRequest.t) (d : Z) :
  hotels <> [] ->
  (forall b,
      SearchRequest.budget request = Some b -> ~ (b == 0)%Q -> d <> 0 ->
      exists selected ranked,
        PlannerAgent.select_best_hotels hotels request d = Ok selected
        /\ (forall h, In h selected ->
                      (Hotel.price_per_night h <= per_night_ceiling b d)%Q)
        /\ Permutation ranked (filter (within_ceiling b d) hotels)
        /\ StronglySorted hotel_key_le ranked
        /\ selected = firstn 2 ranked)
  /\ (truthy (SearchRequest.budget request) = false ->
      exists ranked,
        PlannerAgent.select_best_hotels hotels request d
        = Ok (firstn 2 ranked)
        /\ Permutation ranked hotels
        /\ StronglySorted hotel_key_le ranked).
Proof.
  intros _. split.
  - intros b Hb Hnz Hd.
    exists (firstn 2 (sorted PlannerAgent.hotel_key_lt
                             (filter (within_ceiling b d) hotels))).
    exists (sorted PlannerAgent.hotel_key_lt
                   (filter (within_ceiling b d) hotels)).
    split; [now apply select_best_hotels_budget|].
    split.
    + intros h Hh. apply In_firstn in Hh. apply sorted_In in Hh.
      apply filter_In in Hh. now apply within_ceiling_true.
    + split; [apply sorted_perm|].
      split; [apply sorted_hotels_StronglySorted | reflexivity].
  - intro Hb. exists (sorted PlannerAgent.hotel_key_lt hotels).
    split; [now apply select_best_hotels_no_budget|].
    split; [apply sorted_perm | apply sorted_hotels_StronglySorted].
Qed.

Lemma select_best_hotels_spec_witness :
  exists selected ranked,
    PlannerAgent.select_best_hotels
      [sample_hotel "Budget Inn" (5 # 2) 65;
       sample_hotel "Grand Palace" (9 # 2) 400;
       sample_hotel "Plaza" (9 # 2) 120;
       sample_hotel "Harbour" 4 90]
      (sample_request 100 105 (Some 2000%Q)) 5 = Ok selected
    /\ (forall h, In h selected ->
                  (Hotel.price_per_night h <= per_night_ceiling 2000 5)%Q)
    /\ Permutation ranked
         (filter (within_ceiling 2000 5)
            [sample_hotel "Budget Inn" (5 # 2) 65;
             sample_hotel "Grand Palace" (9 # 2) 400;
             sample_hotel "Plaza" (9 # 2) 120;
             sample_hotel "Harbour" 4 90])
    /\ StronglySorted hotel_key_le ranked
    /\ selected = firstn 2 ranked.
Proof.
  refine (proj1 (select_best_hotels_spec _ _ 5 _) 2000%Q _ _ _).
  - discriminate.
  - reflexivity.
  - unfold Qeq. simpl. lia.
  - lia.
Defined.

(** C3 as worded fails for a budget that is set to zero: the filter is
    skipped and a hotel above the (zero) ceiling is selected. *)
Lemma select_best_hotels_zero_budget_counterexample :
  ~ (forall hotels request d b selected h,
        hotels <> [] ->
        SearchRequest.budget request = Some b ->
        PlannerAgent.select_best_hotels hotels request d = Ok selected ->
        In h selected ->
        (Hotel.price_per_night h <= per_night_ceiling b d)%Q).
Proof.
  intro H.
  specialize (H [sample_hotel "Plaza" (9 # 2) 120]
                (sample_request 100 105 (Some 0%Q)) 5 0%Q
                [sample_hotel "Plaza" (9 # 2) 120]
                (sample_hotel "Plaza" (9 # 2) 120)).
  assert (Hle : (120 <= per_night_ceiling 0 5)%Q).
  { apply H; [discriminate | reflexivity | reflexivity | now left]. }
  unfold Qle in Hle. simpl in Hle. lia.
Qed.

(** ** Cost *)

Lemma activity_cost_tier (a : PointOfInterest.t) :
  PlannerAgent.activity_cost a = tier_amount (PointOfInterest.price_range a).
Proof.
  unfold PlannerAgent.activity_cost.
  destruct (PointOfInterest.price_range a) as [r|]; [|reflexivity].
  destruct r as [|c1 r]; [reflexivity|].
  destruct c1 as [[] [] [] [] [] [] [] []]; try reflexivity.
  destruct r as [|c2 r]; [reflexivity|].
  destruct c2 as [[] [] [] [] [] [] [] []]; try reflexivity.
  destruct r as [|c3 r]; [reflexivity|].
  destruct c3 as [[] [] [] [] [] [] [] []]; try reflexivity.
  destruct r; reflexivity.
Qed.

Lemma Qsum_app (l1 l2 : list Q) : (Qsum (l1 ++ l2) == Qsum l1 + Qsum l2)%Q.
Proof.
  induction l1 as [|x l1 IH]; simpl.
  - ring.
  - rewrite IH. ring.
Qed.

(** An accumulating loop adds the sum of its terms to the accumulator. *)
Lemma fold_left_Qplus {A : Type} (f : A -> Q) (l : list A) (acc : Q) :
  (fold_left (fun acc x => acc + f x) l acc == acc + Qsum (map f l))%Q.
Proof.
  revert acc. induction l as [|x l IH]; intro acc; simpl.
  - ring.
  - rewrite IH. ring.
Qed.

Lemma fold_left_activities (schedules : list DailySchedule.t) (acc : Q) :
  (fold_left
     (fun acc daily_schedule =>
        fold_left (fun acc activity => acc + PlannerAgent.activity_cost activity)
                  (DailySchedule.activities daily_schedule) acc)
     schedules acc
   == acc + Qsum (map PlannerAgent.activity_cost
                      (flat_map DailySchedule.activities schedules)))%Q.
Proof.
  revert acc. induction schedules as [|s schedules IH]; intro acc; simpl.
  - ring.
  - rewrite IH, fold_left_Qplus, map_app, Qsum_app. ring.
Qed.

(** C7.  The estimated cost is the outbound price if there is an outbound
    flight, plus the return price if there is a return flight, plus
    [price_per_night * total_days] for each hotel, plus, for each activity
    of each daily schedule, 20, 50 or 100 for the tiers "$", "$$" and "$$$"
    and nothing for any other tier or none. *)
Theorem calculate_total_cost_spec (itinerary : Itinerary.t) :
  (PlannerAgent.calculate_total_cost itinerary == estimated_cost itinerary)%Q.
Proof.
  unfold PlannerAgent.calculate_total_cost, estimated_cost,
    scheduled_activities.
  rewrite fold_left_activities, fold_left_Qplus.
  rewrite (map_ext _ _ activity_cost_tier).
  destruct (Itinerary.outbound_flight itinerary),
    (Itinerary.return_flight itinerary); simpl; ring.
Qed.

(** ** Validation *)

Lemma validate_no_hotels (it : Itinerary.t) :
  Itinerary.hotels it = [] ->
  PlannerAgent.validate_itinerary_logged it
  = (PlannerAgent.LogNoHotels, false).
Proof.
  intro H. unfold PlannerAgent.validate_itinerary_logged. now rewrite H.
Qed.

Lemma validate_flight_mismatch (it : Itinerary.t) (f : Flight.t) :
  rule_hotels it ->
  Itinerary.outbound_flight it = Some f ->
  dt_date (Flight.departure_time f) <> Itinerary.start_date it ->
  PlannerAgent.validate_itinerary_logged it
  = (PlannerAgent.LogFlightDateMismatch, false).
Proof.
  unfold rule_hotels, PlannerAgent.validate_itinerary_logged.
  intros Hh Hf Hd. destruct (Itinerary.hotels it); [congruence|].
  rewrite Hf. apply Z.eqb_neq in Hd. now rewrite Hd.
Qed.

Lemma flight_check_passes (it : Itinerary.t) :
  rule_flight_date it ->
  match Itinerary.outbound_flight it with
  | Some f =>
      negb (dt_date (Flight.departure_time f) =? Itinerary.start_date it)
  | None => false
  end = false.
Proof.
  unfold rule_flight_date. intro H.
  destruct (Itinerary.outbound_flight it) as [f|]; trivial.
  rewrite (H f eq_refl), Z.eqb_refl. reflexivity.
Qed.

Lemma validate_incomplete (it : Itinerary.t) :
  rule_hotels it -> rule_flight_date it -> ~ rule_schedules it ->
  PlannerAgent.validate_itinerary_logged it
  = (PlannerAgent.LogIncompleteSchedules, false).
Proof.
  unfold rule_hotels, rule_schedules, PlannerAgent.validate_itinerary_logged.
  intros Hh Hf Hs. destruct (Itinerary.hotels it); [congruence|].
  rewrite (flight_check_passes it Hf).
  apply Z.eqb_neq in Hs. now rewrite Hs.
Qed.

Lemma validate_over_budget (it : Itinerary.t) (b : Q) :
  rule_hotels it -> rule_flight_date it -> rule_schedules it ->
  Itinerary.total_budget it = Some b -> ~ (b == 0)%Q ->
  (b < PlannerAgent.calculate_total_cost it)%Q ->
  PlannerAgent.validate_itinerary_logged it
  = (PlannerAgent.LogBudgetExceeded (PlannerAgent.calculate_total_cost it) b,
     false).
Proof.
  unfold rule_hotels, rule_schedules, PlannerAgent.validate_itinerary_logged.
  intros Hh Hf Hs Hb Hnz Hlt. destruct (Itinerary.hotels it); [congruence|].
  rewrite (flight_check_passes it Hf), Hs, Z.eqb_refl, Hb.
  apply truthy_Some in Hnz. rewrite Hnz.
  apply Qlt_bool_iff in Hlt. now rewrite Hlt.
Qed.

Lemma validate_passes (it : Itinerary.t) :
  rule_hotels it -> rule_flight_date it -> rule_schedules it ->
  rule_budget_nonzero it ->
  PlannerAgent.validate_itinerary_logged it = (PlannerAgent.LogPassed, true).
Proof.
  unfold rule_hotels, rule_schedules, rule_budget_nonzero,
    PlannerAgent.validate_itinerary_logged.
  intros Hh Hf Hs Hb. destruct (Itinerary.hotels it); [congruence|].
  rewrite (flight_check_passes it Hf), Hs, Z.eqb_refl. simpl negb. cbv iota.
  destruct (Itinerary.total_budget it) as [b|]; [|reflexivity].
  destruct (truthy (Some b)) eqn:Et; [|reflexivity].
  apply truthy_Some in Et. specialize (Hb b eq_refl Et).
  destruct (Qlt_bool b _) eqn:El; [|reflexivity].
  apply Qlt_bool_iff in El. apply Qle_not_lt in Hb. contradiction.
Qed.

Lemma rule_flight_date_dec (it : Itinerary.t) :
  rule_flight_date it
  \/ exists f, Itinerary.outbound_flight it = Some f
               /\ dt_date (Flight.departure_time f) <> Itinerary.start_date it.
Proof.
  unfold rule_flight_date.
  destruct (Itinerary.outbound_flight it) as [f|].
  - destruct (Z.eq_dec (dt_date (Flight.departure_time f))
                       (Itinerary.start_date it)) as [E|E].
    + left. now intros f' [= <-].
    + right. now exists f.
  - left. discriminate.
Qed.

Lemma rule_budget_nonzero_dec (it : Itinerary.t) :
  rule_budget_nonzero it
  \/ exists b, Itinerary.total_budget it = Some b /\ ~ (b == 0)%Q
               /\ (b < PlannerAgent.calculate_total_cost it)%Q.
Proof.
  unfold rule_budget_nonzero.
  destruct (Itinerary.total_budget it) as [b|].
  - destruct (Qlt_le_dec b (PlannerAgent.calculate_total_cost it)) as [L|L].
    + destruct (Qeq_dec b 0) as [Z|Z].
      * left. intros b' [= <-] Hnz. contradiction.
      * right. now exists b.
    + left. now intros b' [= <-] _.
  - left. discriminate.
Qed.

(** C5, as the code has it.  Validation succeeds exactly when the four
    rules hold, the fourth being that a budget other than zero bounds the
    estimated cost; the rules are tried in order and the first one that
    fails is the one reported; an empty hotel list fails validation, and so
    does a cost above a budget other than zero. *)
Theorem validate_itinerary_spec (it : Itinerary.t) :
  (PlannerAgent.validate_itinerary it = true
   <-> rule_hotels it /\ rule_flight_date it /\ rule_schedules it
       /\ rule_budget_nonzero it)
  /\ (~ rule_hotels it ->
      PlannerAgent.validate_itinerary_logged it
      = (PlannerAgent.LogNoHotels, false))
  /\ (rule_hotels it -> ~ rule_flight_date it ->
      PlannerAgent.validate_itinerary_logged it
      = (PlannerAgent.LogFlightDateMismatch, false))
  /\ (rule_hotels it -> rule_flight_date it -> ~ rule_schedules it ->
      PlannerAgent.validate_itinerary_logged it
      = (PlannerAgent.LogIncompleteSchedules, false))
  /\ (rule_hotels it -> rule_flight_date it -> rule_schedules it ->
      ~ rule_budget_nonzero it ->
      exists b,
        Itinerary.total_budget it = Some b
        /\ PlannerAgent.validate_itinerary_logged it
           = (PlannerAgent.LogBudgetExceeded
                (PlannerAgent.calculate_total_cost it) b, false))
  /\ (Itinerary.hotels it = [] -> PlannerAgent.validate_itinerary it = false)
  /\ (forall b, Itinerary.total_budget it = Some b -> ~ (b == 0)%Q ->
                (b < PlannerAgent.calculate_total_cost it)%Q ->
                PlannerAgent.validate_itinerary it = false).
Proof.
  assert (Hno : ~ rule_hotels it ->
                PlannerAgent.validate_itinerary_logged it
                = (PlannerAgent.LogNoHotels, false)).
  { intro H. apply validate_no_hotels. unfold rule_hotels in H.
    destruct (Itinerary.hotels it); [reflexivity | exfalso; now apply H]. }
  assert (Hfl : rule_hotels it -> ~ rule_flight_date it ->
                PlannerAgent.validate_itinerary_logged it
                = (PlannerAgent.LogFlightDateMismatch, false)).
  { intros Hh Hf. destruct (rule_flight_date_dec it) as [H|(f & E & H)];
      [contradiction | now apply (validate_flight_mismatch it f)]. }
  assert (Hbu : rule_hotels it -> rule_flight_date it -> rule_schedules it ->
                ~ rule_budget_nonzero it ->
                exists b,
                  Itinerary.total_budget it = Some b
                  /\ PlannerAgent.validate_itinerary_logged it
                     = (PlannerAgent.LogBudgetExceeded
                          (PlannerAgent.calculate_total_cost it) b, false)).
  { intros Hh Hf Hs Hb.
    destruct (rule_budget_nonzero_dec it) as [H|(b & E & Hnz & H)];
      [contradiction|].
    exists b. split; [exact E | now apply validate_over_budget]. }
  assert (Hdec_h : rule_hotels it \/ ~ rule_hotels it).
  { unfold rule_hotels. destruct (Itinerary.hotels it);
      [right; intro H; now apply H | left; discriminate]. }
  assert (Hdec_s : rule_schedules it \/ ~ rule_schedules it).
  { unfold rule_schedules. lia. }
  assert (Hfalse : ~ (rule_hotels it /\ rule_flight_date it
                      /\ rule_schedules it /\ rule_budget_nonzero it) ->
                   PlannerAgent.validate_itinerary it = false).
  { intro Hn. unfold PlannerAgent.validate_itinerary.
    destruct Hdec_h as [Hh|Hh]; [|now rewrite Hno].
    destruct (rule_flight_date_dec it) as [Hf|(f & E & Hf)];
      [|now rewrite (validate_flight_mismatch it f)].
    destruct Hdec_s as [Hs|Hs]; [|now rewrite validate_incomplete].
    destruct (rule_budget_nonzero_dec it) as [Hb|(b & E & Hnz & Hb)].
    - exfalso. apply Hn. auto.
    - now rewrite (validate_over_budget it b). }
  split; [|split; [exact Hno|split; [exact Hfl|split;
    [apply validate_incomplete|split; [exact Hbu|split]]]]].
  - split.
    + intro Ht.
      destruct Hdec_h as [Hh|Hh];
        [|rewrite Hfalse in Ht; [discriminate | tauto]].
      destruct (rule_flight_date_dec it) as [Hf|(f & E & Hf)].
      2:{ rewrite Hfalse in Ht; [discriminate|].
          intros (_ & Hf' & _). apply Hf, (Hf' f E). }
      destruct Hdec_s as [Hs|Hs];
        [|rewrite Hfalse in Ht; [discriminate | tauto]].
      destruct (rule_budget_nonzero_dec it) as [Hb|(b & E & Hnz & Hb)];
        [tauto|].
      rewrite Hfalse in Ht; [discriminate|].
      intros (_ & _ & _ & Hb'). apply Qlt_not_le in Hb.
      apply Hb, (Hb' b E Hnz).
    + intros (Hh & Hf & Hs & Hb). unfold PlannerAgent.validate_itinerary.
      now rewrite validate_passes.
  - intro H. unfold PlannerAgent.validate_itinerary.
    now rewrite validate_no_hotels.
  - intros b E Hnz Hlt. apply Hfalse.
    intros (_ & _ & _ & Hb). apply Qlt_not_le in Hlt.
    apply Hlt, (Hb b E Hnz).
Qed.

(** C5 as worded fails for a budget that is set to zero: the cost check is
    skipped, so validation succeeds although the cost is above the budget. *)
Lemma validate_itinerary_zero_budget_counterexample :
  ~ (forall it,
        PlannerAgent.validate_itinerary it = true
        <-> rule_hotels it /\ rule_flight_date it /\ rule_schedules it
            /\ rule_budget_set it).
Proof.
  intro H.
  assert (Hv : PlannerAgent.validate_itinerary (sample_itinerary (Some 0%Q))
               = true) by reflexivity.
  apply H in Hv. destruct Hv as (_ & _ & _ & Hb).
  specialize (Hb 0%Q eq_refl).
  vm_compute in Hb. apply Hb. reflexivity.
Qed.

(** ** A budget of zero *)

Lemma truthy_zero (b : Q) : (b == 0)%Q -> truthy (Some b) = false.
Proof.
  intro H. simpl. apply Qeq_bool_iff in H. now rewrite H.
Qed.

(** C10.  A budget equal to zero is treated as no budget at all.
    [select_best_hotels] returns what it returns without a budget, namely
    the first two of all the candidates in rank order, whatever the trip
    length; [validate_itinerary] returns and reports what it does without a
    budget, and never reports an exceeded budget. *)
Theorem zero_budget_is_no_budget (b : Q) :
  (b == 0)%Q ->
  (forall hotels request d,
      PlannerAgent.select_best_hotels hotels (set_budget request (Some b)) d
      = PlannerAgent.select_best_hotels hotels (set_budget request None) d
      /\ PlannerAgent.select_best_hotels hotels (set_budget request (Some b)) d
         = Ok (firstn 2 (sorted PlannerAgent.hotel_key_lt hotels)))
  /\ (forall it,
         PlannerAgent.validate_itinerary_logged (set_total_budget it (Some b))
         = PlannerAgent.validate_itinerary_logged (set_total_budget it None)
         /\ PlannerAgent.validate_itinerary (set_total_budget it (Some b))
            = PlannerAgent.validate_itinerary (set_total_budget it None)
         /\ forall cost budget,
             fst (PlannerAgent.validate_itinerary_logged
                    (set_total_budget it (Some b)))
             <> PlannerAgent.LogBudgetExceeded cost budget).
Proof.
  intro Hz. pose proof (truthy_zero b Hz) as Ht. split.
  - intros hotels request d.
    rewrite !select_best_hotels_no_budget by (simpl; trivial). now split.
  - intro it.
    assert (E : PlannerAgent.validate_itinerary_logged
                  (set_total_budget it (Some b))
                = PlannerAgent.validate_itinerary_logged
                    (set_total_budget it None)).
    { unfold PlannerAgent.validate_itinerary_logged, set_total_budget.
      cbn [Itinerary.hotels Itinerary.outbound_flight Itinerary.start_date
           Itinerary.daily_schedules Itinerary.total_days
           Itinerary.total_budget].
      rewrite Ht. reflexivity. }
    split; [exact E|]. split.
    + unfold PlannerAgent.validate_itinerary. now rewrite E.
    + intros cost budget. rewrite E.
      unfold PlannerAgent.validate_itinerary_logged, set_total_budget.
      cbn [Itinerary.hotels Itinerary.outbound_flight Itinerary.start_date
           Itinerary.daily_schedules Itinerary.total_days
           Itinerary.total_budget].
      destruct (Itinerary.hotels it); [discriminate|].
      repeat match goal with
             | |- context [if ?c then _ else _] => destruct c
             end; discriminate.
Qed.

Lemma zero_budget_is_no_budget_witness :
  PlannerAgent.select_best_hotels
    [sample_hotel "Plaza" (9 # 2) 120]
    (set_budget (sample_request 100 105 None) (Some 0%Q)) 5
  = Ok [sample_hotel "Plaza" (9 # 2) 120]
  /\ PlannerAgent.validate_itinerary
       (set_total_budget (sample_itinerary None) (Some 0%Q)) = true.
Proof.
  destruct (zero_budget_is_no_budget 0%Q ltac:(reflexivity)) as [Hh Hv].
  split.
  - rewrite (proj2 (Hh _ _ _)). reflexivity.
  - rewrite (proj1 (proj2 (Hv _))). reflexivity.
Defined.

(** ** Free-time slots *)

Lemma duration_or_default_valid (a : PointOfInterest.t) :
  PointOfInterest.valid a = true ->
  PlannerAgent.duration_or_default a = claimed_hours a.
Proof.
  unfold PointOfInterest.valid, PlannerAgent.duration_or_default,
    claimed_hours.
  intro H. apply andb_prop in H. destruct H as [_ H].
  destruct (PointOfInterest.duration_hours a) as [d|]; trivial.
  destruct (Qeq_bool d 0) eqn:E; trivial.
  apply Qeq_bool_iff in E. apply negb_true_iff in H.
  assert (Hle : Qle_bool d 0 = true) by (apply Qle_bool_iff; lra).
  congruence.
Qed.

Lemma total_activity_time_valid (activities : list PointOfInterest.t) :
  Forall (fun a => PointOfInterest.valid a = true) activities ->
  (PlannerAgent.total_activity_time activities
   == scheduled_hours activities)%Q.
Proof.
  intro Hv. unfold PlannerAgent.total_activity_time, scheduled_hours.
  rewrite fold_left_Qplus.
  rewrite (map_ext_in PlannerAgent.duration_or_default claimed_hours).
  - ring.
  - intros a Ha. apply duration_or_default_valid.
    rewrite Forall_forall in Hv. auto.
Qed.

Lemma create_free_time_slots_cases (activities : list PointOfInterest.t) :
  let total := PlannerAgent.total_activity_time activities in
  ((8 <= total)%Q -> PlannerAgent.create_free_time_slots activities = [])
  /\ ((total <= 4)%Q ->
      PlannerAgent.create_free_time_slots activities
      = [PlannerAgent.afternoon_slot; PlannerAgent.evening_slot])
  /\ ((4 < total)%Q -> (total <= 6)%Q ->
      PlannerAgent.create_free_time_slots activities
      = [PlannerAgent.afternoon_slot])
  /\ ((6 < total)%Q -> PlannerAgent.create_free_time_slots activities = []).
Proof.
  intro total. unfold PlannerAgent.create_free_time_slots. fold total.
  destruct (Qlt_bool total 8) eqn:E8;
    [apply Qlt_bool_iff in E8 | apply Qlt_bool_false_iff in E8];
  (destruct (Qle_bool 2 (8 - total)) eqn:E2;
    [apply Qle_bool_iff in E2
    |apply not_true_iff_false in E2; rewrite Qle_bool_iff in E2]);
  (destruct (Qle_bool 4 (8 - total)) eqn:E4;
    [apply Qle_bool_iff in E4
    |apply not_true_iff_false in E4; rewrite Qle_bool_iff in E4]);
  repeat split; intros; try reflexivity; exfalso; lra.
Qed.

(** C8.  Count each (schema-valid) activity as its duration, or two hours
    when it has none.  A total of eight hours or more gives no slot.  Below
    eight hours, the "2:00 PM" to "4:00 PM" slot is there exactly when at
    least two hours remain, followed by the "6:00 PM" to "8:00 PM" slot
    exactly when at least four hours remain; a total under two hours gives
    both. *)
Theorem create_free_time_slots_spec (activities : list PointOfInterest.t) :
  Forall (fun a => PointOfInterest.valid a = true) activities ->
  let total := scheduled_hours activities in
  let slots := PlannerAgent.create_free_time_slots activities in
  ((8 <= total)%Q -> slots = [])
  /\ ((total < 8)%Q -> (4 <= 8 - total)%Q ->
      map slot_times slots = [afternoon_times; evening_times])
  /\ ((total < 8)%Q -> (2 <= 8 - total)%Q -> ~ (4 <= 8 - total)%Q ->
      map slot_times slots = [afternoon_times])
  /\ ((total < 8)%Q -> ~ (2 <= 8 - total)%Q -> slots = [])
  /\ ((total < 2)%Q ->
      map slot_times slots = [afternoon_times; evening_times]).
Proof.
  intros Hv total slots.
  pose proof (total_activity_time_valid activities Hv) as Ht.
  fold total in Ht.
  destruct (create_free_time_slots_cases activities) as (H8 & H4 & H6 & H0).
  cbv zeta in H8, H4, H6, H0. subst slots.
  repeat split; intros.
  - apply H8. lra.
  - rewrite H4 by lra. reflexivity.
  - rewrite H6 by lra. reflexivity.
  - apply H0. lra.
  - rewrite H4 by lra. reflexivity.
Qed.

Lemma create_free_time_slots_spec_witness :
  map slot_times
      (PlannerAgent.create_free_time_slots
         [sample_poi "Museum" CULTURAL (Some "$$"%string) (Some (3 # 1));
          sample_poi "Market" SHOPPING None None])
  = [afternoon_times].
Proof.
  refine (proj1 (proj2 (proj2
            (create_free_time_slots_spec
               [sample_poi "Museum" CULTURAL (Some "$$"%string) (Some (3 # 1));
                sample_poi "Market" SHOPPING None None] _))) _ _ _).
  - repeat constructor.
  - vm_compute. reflexivity.
  - vm_compute. discriminate.
  - vm_compute. intro H. apply H. reflexivity.
Defined.

(** ** The category dictionary *)

Lemma dict_keys_append {V : Type} (k : string) (x : V)
    (d : list (string * list V)) :
  dict_keys (dict_append k x d) = dict_keys d.
Proof.
  unfold dict_keys. induction d as [|[k0 v] d IH]; simpl; trivial.
  destruct (String.eqb k0 k); simpl; [reflexivity | now rewrite IH].
Qed.

Lemma dict_mem_append {V : Type} (k k' : string) (x : V)
    (d : list (string * list V)) :
  dict_mem k' (dict_append k x d) = dict_mem k' d.
Proof.
  unfold dict_mem. induction d as [|[k0 v] d IH]; simpl; trivial.
  destruct (String.eqb k0 k); simpl; [reflexivity | now rewrite IH].
Qed.

Lemma dict_get_append_same {V : Type} (k : string) (x : V)
    (d : list (string * list V)) :
  dict_get k (dict_append k x d)
  = if dict_mem k d then dict_get k d ++ [x] else [].
Proof.
  unfold dict_mem. induction d as [|[k0 v] d IH]; simpl; trivial.
  destruct (String.eqb k0 k) eqn:E; simpl; rewrite E; simpl; trivial.
Qed.

Lemma dict_get_append_other {V : Type} (k k' : string) (x : V)
    (d : list (string * list V)) :
  k <> k' -> dict_get k' (dict_append k x d) = dict_get k' d.
Proof.
  intro Hne. induction d as [|[k0 v] d IH]; simpl; trivial.
  destruct (String.eqb k0 k) eqn:E; simpl.
  - apply String.eqb_eq in E. subst k0.
    apply String.eqb_neq in Hne. now rewrite Hne.
  - now rewrite IH.
Qed.

Lemma dict_keys_new {V : Type} (k : string) (d : list (string * list V)) :
  dict_keys (dict_new k d) = dict_keys d ++ [k].
Proof. unfold dict_keys, dict_new. now rewrite map_app. Qed.

Lemma dict_mem_new {V : Type} (k k' : string) (d : list (string * list V)) :
  dict_mem k' (dict_new k d) = dict_mem k' d || String.eqb k k'.
Proof.
  unfold dict_mem, dict_new. rewrite existsb_app. simpl.
  now rewrite orb_false_r.
Qed.

Lemma dict_get_new {V : Type} (k k' : string) (d : list (string * list V)) :
  dict_get k' (dict_new k d) = dict_get k' d.
Proof.
  unfold dict_new. induction d as [|[k0 v] d IH]; simpl.
  - now destruct (String.eqb k k').
  - now rewrite IH.
Qed.

Lemma dict_mem_eq {V : Type} (k k' : string) (d : list (string * V)) :
  String.eqb k k' = true -> dict_mem k' d = dict_mem k d.
Proof. intro E. apply String.eqb_eq in E. now subst. Qed.

Lemma first_occurrences_snoc {A : Type} (eqb : A -> A -> bool)
    (l : list A) (c : A) :
  first_occurrences eqb (l ++ [c])
  = if existsb (fun x => eqb c x) l then first_occurrences eqb l
    else first_occurrences eqb l ++ [c].
Proof.
  induction l as [|x l IH]; simpl; trivial.
  rewrite IH. destruct (existsb (fun x => eqb c x) l).
  - now rewrite orb_true_r.
  - rewrite orb_false_r, filter_app. simpl.
    destruct (eqb c x); simpl; [now rewrite app_nil_r | reflexivity].
Qed.

Lemma first_occurrences_map {A B : Type} (eqa : A -> A -> bool)
    (eqb : B -> B -> bool) (f : A -> B) (l : list A) :
  (forall a a', eqb (f a) (f a') = eqa a a') ->
  first_occurrences eqb (map f l) = map f (first_occurrences eqa l).
Proof.
  intro H. induction l as [|x l IH]; simpl; trivial.
  rewrite IH. f_equal. clear IH.
  induction (first_occurrences eqa l) as [|y r IHr]; simpl; trivial.
  rewrite H. destruct (eqa y x); simpl; now rewrite IHr.
Qed.

Lemma categorize_snoc (pois : list PointOfInterest.t)
    (x : PointOfInterest.t) :
  PlannerAgent.categorize (pois ++ [x])
  = dict_append (poi_key x) x
      (if negb (dict_mem (poi_key x) (PlannerAgent.categorize pois))
       then dict_new (poi_key x) (PlannerAgent.categorize pois)
       else PlannerAgent.categorize pois).
Proof.
  unfold PlannerAgent.categorize. rewrite fold_left_app. reflexivity.
Qed.

Lemma existsb_map_key (c : string) (pois : list PointOfInterest.t) :
  existsb (fun s => String.eqb c s) (map poi_key pois)
  = existsb (fun p => String.eqb (poi_key p) c) pois.
Proof.
  induction pois as [|p pois IH]; simpl; trivial.
  now rewrite IH, String.eqb_sym.
Qed.

(** What the dictionary holds once the loop has run over [pois]: the keys
    are the category names in first-occurrence order, and each key maps to
    the POIs of that category in input order. *)
Lemma categorize_inv (pois : list PointOfInterest.t) :
  (forall k, dict_mem k (PlannerAgent.categorize pois)
             = existsb (fun p => String.eqb (poi_key p) k) pois)
  /\ (forall k, dict_get k (PlannerAgent.categorize pois)
                = filter (fun p => String.eqb (poi_key p) k) pois)
  /\ dict_keys (PlannerAgent.categorize pois)
     = first_occurrences String.eqb (map poi_key pois).
Proof.
  induction pois as [|x pois (Hm & Hg & Hk)] using rev_ind.
  - repeat split.
  - rewrite categorize_snoc.
    set (d := PlannerAgent.categorize pois) in *.
    set (c := poi_key x).
    split; [|split].
    + intro k. rewrite dict_mem_append, existsb_app. simpl.
      rewrite orb_false_r. fold c.
      destruct (dict_mem c d) eqn:Ec; simpl negb; cbv iota.
      * rewrite Hm. destruct (String.eqb c k) eqn:Ek.
        -- apply String.eqb_eq in Ek. subst k.
           rewrite <- Hm, Ec. reflexivity.
        -- now rewrite orb_false_r.
      * now rewrite dict_mem_new, Hm.
    + intro k. rewrite filter_app. simpl. fold c.
      destruct (String.eqb c k) eqn:Ek.
      * apply String.eqb_eq in Ek. subst k.
        rewrite dict_get_append_same.
        destruct (dict_mem c d) eqn:Ec; simpl negb; cbv iota.
        -- now rewrite Ec, Hg.
        -- now rewrite dict_mem_new, Ec, String.eqb_refl, dict_get_new, Hg.
      * apply String.eqb_neq in Ek.
        rewrite dict_get_append_other by assumption.
        destruct (dict_mem c d); simpl negb; cbv iota;
          [|rewrite dict_get_new]; now rewrite Hg, app_nil_r.
    + rewrite dict_keys_append, map_app. simpl. fold c.
      rewrite first_occurrences_snoc, existsb_map_key, <- Hm.
      destruct (dict_mem c d); simpl negb; cbv iota.
      * exact Hk.
      * now rewrite dict_keys_new, Hk.
Qed.

Lemma ActivityType_value_eqb (a b : ActivityType) :
  String.eqb (ActivityType_value a) (ActivityType_value b)
  = ActivityType_eqb a b.
Proof. destruct a, b; reflexivity. Qed.

Lemma existsb_eq_ext {A : Type} (f g : A -> bool) (l : list A) :
  (forall a, f a = g a) -> existsb f l = existsb g l.
Proof.
  intro H. induction l as [|x l IH]; simpl; trivial. now rewrite H, IH.
Qed.

Lemma dict_mem_categorize (c : ActivityType)
    (pois : list PointOfInterest.t) :
  dict_mem (ActivityType_value c) (PlannerAgent.categorize pois)
  = existsb (has_category c) pois.
Proof.
  rewrite (proj1 (categorize_inv pois)). apply existsb_eq_ext.
  intro p. apply ActivityType_value_eqb.
Qed.

Lemma dict_get_categorize (c : ActivityType)
    (pois : list PointOfInterest.t) :
  dict_get (ActivityType_value c) (PlannerAgent.categorize pois)
  = filter (has_category c) pois.
Proof.
  rewrite (proj1 (proj2 (categorize_inv pois))). apply filter_ext.
  intro p. apply ActivityType_value_eqb.
Qed.

Lemma dict_keys_categorize (pois : list PointOfInterest.t) :
  dict_keys (PlannerAgent.categorize pois)
  = map ActivityType_value
        (first_occurrences ActivityType_eqb
           (map PointOfInterest.category pois)).
Proof.
  rewrite (proj2 (proj2 (categorize_inv pois))).
  rewrite <- (first_occurrences_map ActivityType_eqb String.eqb)
    by apply ActivityType_value_eqb.
  now rewrite map_map.
Qed.

Lemma existsb_find {A : Type} (f : A -> bool) (l : list A) :
  existsb f l = match find f l with Some _ => true | None => false end.
Proof.
  induction l as [|x l IH]; simpl; trivial. now destruct (f x).
Qed.

Lemma firstn_1_filter {A : Type} (f : A -> bool) (l : list A) :
  firstn 1 (filter f l) = match find f l with Some p => [p] | None => [] end.
Proof.
  induction l as [|x l IH]; simpl; trivial. now destruct (f x).
Qed.

(** ** Activities of a day *)

Lemma first_available_single_pick (priorities : list ActivityType)
    (pois : list PointOfInterest.t) :
  PlannerAgent.first_available (map ActivityType_value priorities)
    (PlannerAgent.categorize pois)
  = single_pick priorities pois.
Proof.
  induction priorities as [|c priorities IH]; trivial.
  cbn [PlannerAgent.first_available single_pick map].
  rewrite dict_mem_categorize, dict_get_categorize, existsb_find,
    firstn_1_filter, IH.
  now destruct (find (has_category c) pois).
Qed.

Lemma enumerate_from_2 {A B : Type} (f : A -> list B) (l : list A) (n : nat) :
  (2 <= n)%nat ->
  flat_map (fun ic : Z * A => if fst ic <? 2 then f (snd ic) else [])
           (combine (map Z.of_nat (seq n (List.length l))) l)
  = [].
Proof.
  revert n. induction l as [|a l IH]; intros n Hn; simpl; trivial.
  rewrite IH by lia.
  destruct (Z.of_nat n <? 2) eqn:E; trivial.
  apply Z.ltb_lt in E. lia.
Qed.

(** Only the entries of index 0 and 1 pass the test [i < 2]. *)
Lemma enumerate_first_two {A B : Type} (f : A -> list B) (l : list A) :
  flat_map (fun ic : Z * A => if fst ic <? 2 then f (snd ic) else [])
           (enumerate l)
  = flat_map f (firstn 2 l).
Proof.
  unfold enumerate, range. rewrite Nat2Z.id.
  destruct l as [|a [|b l]]; trivial.
  change (f a ++ f b
          ++ flat_map (fun ic : Z * A => if fst ic <? 2 then f (snd ic) else [])
               (combine (map Z.of_nat (seq 2 (List.length l))) l)
          = f a ++ f b ++ []).
  now rewrite enumerate_from_2.
Qed.

Lemma flat_map_map {A B C : Type} (g : A -> B) (f : B -> list C)
    (l : list A) :
  flat_map f (map g l) = flat_map (fun a => f (g a)) l.
Proof.
  induction l as [|a l IH]; simpl; trivial. now rewrite IH.
Qed.

Lemma single_pick_length (priorities : list ActivityType)
    (pois : list PointOfInterest.t) :
  (List.length (single_pick priorities pois) <= 1)%nat.
Proof.
  induction priorities as [|c priorities IH]; simpl; [lia|].
  destruct (find (has_category c) pois); simpl; lia.
Qed.

Lemma flat_map_length_le {A B : Type} (f : A -> list B) (l : list A) :
  (forall a, (List.length (f a) <= 1)%nat) ->
  (List.length (flat_map f l) <= List.length l)%nat.
Proof.
  intro H. induction l as [|a l IH]; simpl; [lia|].
  rewrite length_app. specialize (H a). lia.
Qed.

Lemma middle_pick_length (pois : list PointOfInterest.t) :
  (List.length (middle_pick pois) <= 2)%nat.
Proof.
  unfold middle_pick.
  eapply Nat.le_trans; [apply flat_map_length_le | apply firstn_le_length].
  intro c. unfold first_of_category.
  destruct (find (has_category c) pois); simpl; lia.
Qed.

(** The three branches of [select_activities_for_day]. *)
Lemma select_activities_arrival (pois : list PointOfInterest.t) (d : Z) :
  PlannerAgent.select_activities_for_day pois 0 d
  = single_pick [FOOD; ENTERTAINMENT; CULTURAL] pois.
Proof.
  unfold PlannerAgent.select_activities_for_day.
  destruct pois as [|p pois]; [reflexivity|].
  rewrite Z.eqb_refl.
  change ["food"; "entertainment"; "cultural"]%string
    with (map ActivityType_value [FOOD; ENTERTAINMENT; CULTURAL]).
  rewrite first_available_single_pick.
  apply firstn_all2.
  pose proof (single_pick_length [FOOD; ENTERTAINMENT; CULTURAL] (p :: pois)).
  lia.
Qed.

Lemma select_activities_departure (pois : list PointOfInterest.t)
    (day d : Z) :
  day <> 0 -> day = d - 1 ->
  PlannerAgent.select_activities_for_day pois day d
  = single_pick [SHOPPING; FOOD; CULTURAL] pois.
Proof.
  intros H0 Hl. unfold PlannerAgent.select_activities_for_day.
  destruct pois as [|p pois]; [reflexivity|].
  apply Z.eqb_neq in H0. rewrite H0.
  apply Z.eqb_eq in Hl. rewrite Hl.
  change ["shopping"; "food"; "cultural"]%string
    with (map ActivityType_value [SHOPPING; FOOD; CULTURAL]).
  rewrite first_available_single_pick.
  apply firstn_all2.
  pose proof (single_pick_length [SHOPPING; FOOD; CULTURAL] (p :: pois)).
  lia.
Qed.

Lemma select_activities_middle (pois : list PointOfInterest.t) (day d : Z) :
  day <> 0 -> day <> d - 1 ->
  PlannerAgent.select_activities_for_day pois day d = middle_pick pois.
Proof.
  intros H0 Hl. unfold PlannerAgent.select_activities_for_day.
  destruct pois as [|p pois]; [reflexivity|].
  apply Z.eqb_neq in H0. rewrite H0.
  apply Z.eqb_neq in Hl. rewrite Hl.
  cbv zeta.
  rewrite (enumerate_first_two
             (fun k => firstn 1 (dict_get k
                                   (PlannerAgent.categorize (p :: pois))))).
  rewrite dict_keys_categorize, firstn_map, flat_map_map.
  rewrite (flat_map_ext _ (fun c => first_of_category c (p :: pois))).
  - apply firstn_all2. pose proof (middle_pick_length (p :: pois)). lia.
  - intro c. rewrite dict_get_categorize, firstn_1_filter. reflexivity.
Qed.

(** C6.  On day 0 the selection is the single pick in the order food,
    entertainment, cultural; on the last day of a trip of more than one day
    it is the single pick in the order shopping, food, cultural; on every
    other day it is the first POI of each of the first two categories in
    first-occurrence order of the input. *)
Theorem select_activities_for_day_spec
    (pois : list PointOfInterest.t) (day d : Z) :
  PlannerAgent.select_activities_for_day pois 0 d
  = single_pick [FOOD; ENTERTAINMENT; CULTURAL] pois
  /\ (1 < d -> day = d - 1 ->
      PlannerAgent.select_activities_for_day pois day d
      = single_pick [SHOPPING; FOOD; CULTURAL] pois)
  /\ (day <> 0 -> day <> d - 1 ->
      PlannerAgent.select_activities_for_day pois day d = middle_pick pois).
Proof.
  split; [apply select_activities_arrival|]. split.
  - intros Hd Hl. apply select_activities_departure; lia.
  - apply select_activities_middle.
Qed.

Example select_activities_sample :
  map PointOfInterest.name
      (PlannerAgent.select_activities_for_day sample_pois 0 5)
  = ["Cafe"%string]
  /\ map PointOfInterest.name
         (PlannerAgent.select_activities_for_day sample_pois 4 5)
     = ["Market"%string]
  /\ map PointOfInterest.name
         (PlannerAgent.select_activities_for_day sample_pois 2 5)
     = ["Museum"; "Market"]%string.
Proof. repeat split. Qed.

Example select_best_flights_sample :
  PlannerAgent.select_best_flights sample_flights
    (sample_request 100 105 (Some 2000%Q))
  = (Some (sample_flight "DL350" 100 210 350),
     Some (sample_flight "DL420" 100 225 420)).
Proof. reflexivity. Qed.

Example sample_itinerary_accepted (budget : option Q) :
  Itinerary.valid (sample_itinerary budget) = true.
Proof. reflexivity. Qed.

(** ** Daily schedules *)

Lemma range_length (n : Z) : List.length (range n) = Z.to_nat n.
Proof. unfold range. now rewrite length_map, length_seq. Qed.

Lemma range_nth_error (n : Z) (i : nat) :
  (i < Z.to_nat n)%nat -> nth_error (range n) i = Some (Z.of_nat i).
Proof.
  intro H. unfold range. rewrite nth_error_map, nth_error_seq.
  destruct (Nat.ltb_spec i (Z.to_nat n)); [reflexivity | lia].
Qed.

Lemma create_daily_schedules_length (request : SearchRequest.t)
    (pois : list PointOfInterest.t) (d : Z) :
  List.length (PlannerAgent.create_daily_schedules request pois d)
  = Z.to_nat d.
Proof.
  unfold PlannerAgent.create_daily_schedules.
  now rewrite length_map, range_length.
Qed.

(** The schedule of day [i] carries the date [start_date + i]. *)
Lemma create_daily_schedules_date (request : SearchRequest.t)
    (pois : list PointOfInterest.t) (d : Z) (i : nat) :
  (i < Z.to_nat d)%nat ->
  exists s,
    nth_error (PlannerAgent.create_daily_schedules request pois d) i = Some s
    /\ DailySchedule.date s = SearchRequest.start_date request + Z.of_nat i
    /\ DailySchedule.activities s
       = PlannerAgent.select_activities_for_day pois (Z.of_nat i) d.
Proof.
  intro H. unfold PlannerAgent.create_daily_schedules.
  rewrite nth_error_map, (range_nth_error d i H). simpl.
  eexists. repeat split.
Qed.

Lemma select_activities_length (pois : list PointOfInterest.t) (day d : Z) :
  (List.length (PlannerAgent.select_activities_for_day pois day d) <= 3)%nat.
Proof.
  unfold PlannerAgent.select_activities_for_day.
  destruct pois; [simpl; lia | apply firstn_le_length].
Qed.

(** C9.  Whatever the candidates, a selection of hotels has two hotels at
    most, the activities chosen for a day are three at most, and so are the
    activities of every daily schedule that is built. *)
Theorem selection_caps
    (request : SearchRequest.t) (hotels : list Hotel.t)
    (pois : list PointOfInterest.t) (d : Z) :
  (forall selected,
      PlannerAgent.select_best_hotels hotels request d = Ok selected ->
      (List.length selected <= 2)%nat)
  /\ (forall day,
         (List.length (PlannerAgent.select_activities_for_day pois day d)
          <= 3)%nat)
  /\ (forall s,
         In s (PlannerAgent.create_daily_schedules request pois d) ->
         (List.length (DailySchedule.activities s) <= 3)%nat).
Proof.
  split; [|split].
  - intros selected. apply select_best_hotels_length.
  - intro day. apply select_activities_length.
  - intros s Hs. unfold PlannerAgent.create_daily_schedules in Hs.
    apply in_map_iff in Hs. destruct Hs as (day & <- & _).
    apply select_activities_length.
Qed.

(** ** Composition *)

(** The constructor wants [total_days] to be the day count plus one, and
    [create_itinerary] passes the day count: every request with
    [start_date < end_date] is rejected. *)
Lemma create_itinerary_rejected
    (request : SearchRequest.t) (flights : list Flight.t)
    (hotels : list Hotel.t) (pois : list PointOfInterest.t) (now : datetime) :
  SearchRequest.start_date request < SearchRequest.end_date request ->
  PlannerAgent.create_itinerary request flights hotels pois now
  = Raise (ValidationError "total_days").
Proof.
  intro Hlt. unfold PlannerAgent.create_itinerary.
  destruct (select_best_hotels_returns hotels request
              (SearchRequest.end_date request
               - SearchRequest.start_date request)) as [sel Hsel]; [lia|].
  rewrite Hsel. unfold bind, Itinerary.init, Itinerary.validate_dates,
    Itinerary.validate_total_days.
  destruct (_ <=? _) eqn:E; [apply Z.leb_le in E; lia|].
  unfold bind.
  destruct (_ =? _) eqn:E'; [apply Z.eqb_eq in E'; lia | reflexivity].
Qed.

(** No input at all makes [create_itinerary] return an itinerary. *)
Lemma create_itinerary_never_returns
    (request : SearchRequest.t) (flights : list Flight.t)
    (hotels : list Hotel.t) (pois : list PointOfInterest.t) (now : datetime)
    (it : Itinerary.t) :
  PlannerAgent.create_itinerary request flights hotels pois now <> Ok it.
Proof.
  unfold PlannerAgent.create_itinerary.
  destruct (PlannerAgent.select_best_hotels _ _ _); [|discriminate].
  unfold bind, Itinerary.init, Itinerary.validate_dates,
    Itinerary.validate_total_days.
  destruct (_ <=? _) eqn:E; [discriminate|]. unfold bind.
  destruct (_ =? _) eqn:E'; [apply Z.eqb_eq in E'; lia | discriminate].
Qed.

(** C1.  For a five-night request and no candidate at all,
    [create_itinerary] raises instead of returning an itinerary with empty
    fields. *)
Theorem create_itinerary_empty_candidates_raises :
  PlannerAgent.create_itinerary (sample_request 100 105 None) [] [] []
    (mk_datetime 90 0)
  = Raise (ValidationError "total_days").
Proof. apply create_itinerary_rejected. reflexivity. Qed.

(** C2.  For a five-night request the five daily schedules are built, with
    the dates [start_date + i], and then [create_itinerary] raises: no
    itinerary carries them. *)
Theorem create_itinerary_schedules_raises :
  map DailySchedule.date
      (PlannerAgent.create_daily_schedules
         (sample_request 100 105 (Some 2000%Q)) sample_pois 5)
  = [100; 101; 102; 103; 104]
  /\ PlannerAgent.create_itinerary (sample_request 100 105 (Some 2000%Q))
       sample_flights sample_hotels sample_pois (mk_datetime 90 0)
     = Raise (ValidationError "total_days").
Proof.
  split; [reflexivity|]. apply create_itinerary_rejected. reflexivity.
Qed.

(** ** The statements at the sample data *)

Example sample_data_accepted :
  forallb Flight.valid sample_flights = true
  /\ forallb Hotel.valid sample_hotels = true
  /\ forallb PointOfInterest.valid sample_pois = true
  /\ SearchRequest.valid (sample_request 100 105 (Some 2000%Q)) = true.
Proof. repeat split. Qed.

(** Flights with the same price and duration keep their input order. *)
Lemma sorted_flights_stable (flights : list Flight.t) (price : Q)
    (duration : Z) :
  let same_key f :=
    Qeq_bool (Flight.price f) price
    && (Flight.duration_minutes f =? duration) in
  filter same_key (sorted PlannerAgent.flight_key_lt flights)
  = filter same_key flights.
Proof.
  intro same_key. apply sorted_stable. intros a b Ha Hb.
  unfold same_key in Ha, Hb.
  apply andb_prop in Ha. destruct Ha as [Pa Da].
  apply andb_prop in Hb. destruct Hb as [Pb Db].
  apply Qeq_bool_iff in Pa. apply Qeq_bool_iff in Pb.
  apply Z.eqb_eq in Da. apply Z.eqb_eq in Db.
  unfold PlannerAgent.flight_key_lt.
  assert (E : Qeq_bool (Flight.price a) (Flight.price b) = true).
  { apply Qeq_bool_iff. rewrite Pa, Pb. reflexivity. }
  rewrite E. apply Z.ltb_ge. lia.
Qed.

Lemma select_best_flights_spec_witness :
  exists out ret,
    PlannerAgent.select_best_flights sample_flights
      (sample_request 100 105 (Some 2000%Q)) = (Some out, Some ret)
    /\ In out sample_flights
    /\ (forall f, In f sample_flights -> flight_key_le out f)
    /\ (List.length sample_flights = 1%nat -> ret = out)
    /\ ((2 <= List.length sample_flights)%nat ->
        exists rest,
          Permutation (out :: ret :: rest) sample_flights
          /\ flight_key_le out ret
          /\ forall f, In f rest -> flight_key_le ret f).
Proof.
  apply (proj2 (select_best_flights_spec sample_flights
                  (sample_request 100 105 (Some 2000%Q)))).
  discriminate.
Defined.

Lemma validate_itinerary_spec_witness :
  PlannerAgent.validate_itinerary (sample_itinerary (Some 1000%Q)) = true.
Proof.
  apply (proj1 (validate_itinerary_spec (sample_itinerary (Some 1000%Q)))).
  split; [discriminate|]. split; [|split].
  - intros f E. injection E as <-. reflexivity.
  - reflexivity.
  - intros b E _. injection E as <-. vm_compute. discriminate.
Defined.

Lemma select_activities_for_day_spec_witness :
  PlannerAgent.select_activities_for_day sample_pois 4 5
  = single_pick [SHOPPING; FOOD; CULTURAL] sample_pois
  /\ PlannerAgent.select_activities_for_day sample_pois 2 5
     = middle_pick sample_pois.
Proof.
  split.
  - apply (proj1 (proj2 (select_activities_for_day_spec sample_pois 4 5)));
      lia.
  - apply (proj2 (proj2 (select_activities_for_day_spec sample_pois 2 5)));
      lia.
Defined.

Lemma selection_caps_witness :
  (List.length [sample_hotel "Plaza" (9 # 2) 120;
                sample_hotel "Budget Inn" (5 # 2) 65] <= 2)%nat.
Proof.
  apply (proj1 (selection_caps (sample_request 100 105 (Some 2000%Q))
                  sample_hotels sample_pois 5)).
  reflexivity.
Defined.

(** * Further properties of the pipeline *)

(** ** Request validation and the controller *)

Lemma validate_request_true (request : SearchRequest.t) :
  BaseAgent.validate_request request = true
  <-> SearchRequest.destination request <> ""%string
      /\ SearchRequest.start_date request < SearchRequest.end_date request
      /\ 1 <= SearchRequest.travelers request.
Proof.
  unfold BaseAgent.validate_request.
  destruct (String.eqb_spec (SearchRequest.destination request) "").
  - split; [discriminate | intros (H & _); contradiction].
  - destruct (Z.leb_spec (SearchRequest.end_date request)
                         (SearchRequest.start_date request)).
    + split; [discriminate | lia].
    + destruct (Z.ltb_spec (SearchRequest.travelers request) 1).
      * split; [discriminate | lia].
      * split; [intros _; repeat split; trivial; lia | reflexivity].
Qed.

(** X1.  [process_request] never answers with success, whatever the request
    and whatever the three search agents returned: an invalid request is
    refused, and for a valid one the itinerary constructor raises on the day
    count and the exception is reported. *)
Theorem process_request_never_succeeds
    (str : exn -> string) (request : SearchRequest.t)
    (flight_response : AgentResponse.t (list Flight.t))
    (hotel_response : AgentResponse.t (list Hotel.t))
    (poi_response : AgentResponse.t (list PointOfInterest.t))
    (now : datetime) :
  let response :=
    PlannerController.process_request str request flight_response
      hotel_response poi_response now in
  AgentResponse.success response = false
  /\ AgentResponse.data response = None
  /\ AgentResponse.error_message response
     = Some (if BaseAgent.validate_request request
             then ("Travel planning error: "
                   ++ str (ValidationError "total_days"))%string
             else "Invalid search request"%string).
Proof.
  unfold PlannerController.process_request.
  destruct (BaseAgent.validate_request request) eqn:E; simpl negb; cbv iota.
  - apply validate_request_true in E. destruct E as (_ & Hlt & _).
    rewrite create_itinerary_rejected by exact Hlt.
    repeat split.
  - repeat split.
Qed.

(** X2.  For a request that [validate_request] accepts, the trip lasts one
    night at least, the hotel selection returns (no division by zero), and
    one schedule is built for each night. *)
Theorem validated_request_trip
    (request : SearchRequest.t) (hotels : list Hotel.t)
    (pois : list PointOfInterest.t) :
  BaseAgent.validate_request request = true ->
  let d := SearchRequest.end_date request - SearchRequest.start_date request in
  1 <= d
  /\ (exists selected,
         PlannerAgent.select_best_hotels hotels request d = Ok selected)
  /\ Z.of_nat (List.length (PlannerAgent.create_daily_schedules request pois d))
     = d.
Proof.
  intros E d. apply validate_request_true in E. destruct E as (_ & Hlt & _).
  split; [unfold d; lia|]. split.
  - apply select_best_hotels_returns. unfold d. lia.
  - rewrite create_daily_schedules_length. unfold d. lia.
Qed.

Lemma validated_request_trip_witness :
  1 <= 5
  /\ (exists selected,
         PlannerAgent.select_best_hotels sample_hotels
           (sample_request 100 105 (Some 2000%Q)) 5 = Ok selected)
  /\ Z.of_nat (List.length
                 (PlannerAgent.create_daily_schedules
                    (sample_request 100 105 (Some 2000%Q)) sample_pois 5))
     = 5.
Proof.
  apply (validated_request_trip (sample_request 100 105 (Some 2000%Q))
           sample_hotels sample_pois).
  reflexivity.
Defined.

Lemma select_best_hotels_zero_days
    (hotels : list Hotel.t) (request : SearchRequest.t) :
  hotels <> [] -> truthy (SearchRequest.budget request) = true ->
  PlannerAgent.select_best_hotels hotels request 0 = Raise ZeroDivisionError.
Proof.
  intros Hh Ht. unfold PlannerAgent.select_best_hotels.
  destruct hotels as [|h hs]; [congruence|].
  destruct (SearchRequest.budget request) as [b|]; [|discriminate].
  now rewrite Ht, filter_by_budget_zero_days.
Qed.


(** ** Candidates that arrive ranked *)

Section SortedFixpoint.
Context {A : Type} (ltb : A -> A -> bool) (le : A -> A -> Prop).
Hypothesis le_not_lt : forall a b, le a b -> ltb b a = false.

(** A list already in order is left as it is. *)
Lemma sorted_of_StronglySorted (l : list A) :
  StronglySorted le l -> sorted ltb l = l.
Proof.
  induction 1 as [|a l Hs IH Ha]; simpl; trivial.
  rewrite IH. destruct l as [|y l]; simpl; trivial.
  inversion Ha as [|? ? Hy _]; subst. now rewrite (le_not_lt a y Hy).
Qed.
End SortedFixpoint.

Lemma flight_key_le_not_lt (a b : Flight.t) :
  flight_key_le a b -> PlannerAgent.flight_key_lt b a = false.
Proof.
  unfold flight_key_le, PlannerAgent.flight_key_lt.
  intros [H|[H D]].
  - destruct (Qeq_bool _ _) eqn:E.
    + apply Qeq_bool_iff in E. lra.
    + apply Qlt_bool_false_iff. lra.
  - assert (E : Qeq_bool (Flight.price b) (Flight.price a) = true)
      by (apply Qeq_bool_iff; now symmetry).
    rewrite E. apply Z.ltb_ge. lia.
Qed.

Lemma hotel_key_le_not_lt (a b : Hotel.t) :
  hotel_key_le a b -> PlannerAgent.hotel_key_lt b a = false.
Proof.
  unfold hotel_key_le, PlannerAgent.hotel_key_lt.
  intros [H|[H D]].
  - destruct (Qeq_bool _ _) eqn:E.
    + apply Qeq_bool_iff in E. lra.
    + apply Qlt_bool_false_iff. lra.
  - assert (E : Qeq_bool (- Hotel.rating b) (- Hotel.rating a) = true)
      by (apply Qeq_bool_iff; lra).
    rewrite E. apply Qlt_bool_false_iff. exact D.
Qed.

Lemma StronglySorted_filter {A : Type} (R : A -> A -> Prop) (f : A -> bool)
    (l : list A) :
  StronglySorted R l -> StronglySorted R (filter f l).
Proof.
  induction 1 as [|a l Hs IH Ha]; simpl; [constructor|].
  destruct (f a); trivial. constructor; trivial.
  rewrite Forall_forall in *. intros x Hx. apply filter_In in Hx.
  now apply Ha.
Qed.

(** X4.  When the flights arrive in ascending (price, duration) order, as
    the flight agent returns them, the outbound leg is the first of the
    list and the return leg the second, or the first again when there is
    no second. *)
Theorem select_best_flights_presorted
    (f : Flight.t) (flights : list Flight.t) (request : SearchRequest.t) :
  StronglySorted flight_key_le (f :: flights) ->
  PlannerAgent.select_best_flights (f :: flights) request
  = (Some f, Some (hd f flights)).
Proof.
  intro Hs. unfold PlannerAgent.select_best_flights.
  rewrite (sorted_of_StronglySorted _ _ flight_key_le_not_lt _ Hs).
  destruct flights as [|g flights]; [reflexivity|].
  assert (Hlt : (1 <? Z.of_nat (List.length (f :: g :: flights))) = true).
  { apply Z.ltb_lt. simpl List.length. lia. }
  rewrite Hlt. reflexivity.
Qed.

Lemma select_best_flights_presorted_witness :
  PlannerAgent.select_best_flights
    [sample_flight "DL350" 100 210 350; sample_flight "DL420" 100 225 420]
    (sample_request 100 105 None)
  = (Some (sample_flight "DL350" 100 210 350),
     Some (sample_flight "DL420" 100 225 420)).
Proof.
  apply (select_best_flights_presorted
           (sample_flight "DL350" 100 210 350)
           [sample_flight "DL420" 100 225 420]).
  repeat first [apply SSorted_cons | apply SSorted_nil
               | apply Forall_cons | apply Forall_nil].
  left. vm_compute. reflexivity.
Defined.

(** X5.  When the hotels arrive ranked by rating descending then price
    ascending, as the hotel agent returns them, the selection is made of
    the first two hotels of the list that are within the ceiling, in the
    order of the list; without a budget, or with a budget of zero, it is
    the first two hotels of the list. *)
Theorem select_best_hotels_presorted
    (hotels : list Hotel.t) (request : SearchRequest.t) (d : Z) :
  StronglySorted hotel_key_le hotels ->
  (truthy (SearchRequest.budget request) = false ->
   PlannerAgent.select_best_hotels hotels request d = Ok (firstn 2 hotels))
  /\ (forall b,
         SearchRequest.budget request = Some b -> ~ (b == 0)%Q -> d <> 0 ->
         PlannerAgent.select_best_hotels hotels request d
         = Ok (firstn 2 (filter (within_ceiling b d) hotels))).
Proof.
  intro Hs. split.
  - intro Hb. rewrite select_best_hotels_no_budget by exact Hb.
    now rewrite (sorted_of_StronglySorted _ _ hotel_key_le_not_lt _ Hs).
  - intros b Hb Hnz Hd.
    rewrite (select_best_hotels_budget hotels request d b Hb Hnz Hd).
    rewrite (sorted_of_StronglySorted _ _ hotel_key_le_not_lt); trivial.
    now apply StronglySorted_filter.
Qed.

Lemma select_best_hotels_presorted_witness :
  PlannerAgent.select_best_hotels
    [sample_hotel "Plaza" (9 # 2) 120;
     sample_hotel "Grand Palace" (9 # 2) 400;
     sample_hotel "Harbour" 4 90;
     sample_hotel "Budget Inn" (5 # 2) 65]
    (sample_request 100 105 (Some 2000%Q)) 5
  = Ok [sample_hotel "Plaza" (9 # 2) 120; sample_hotel "Harbour" 4 90].
Proof.
  refine (proj2 (select_best_hotels_presorted
                   [sample_hotel "Plaza" (9 # 2) 120;
                    sample_hotel "Grand Palace" (9 # 2) 400;
                    sample_hotel "Harbour" 4 90;
                    sample_hotel "Budget Inn" (5 # 2) 65]
                   (sample_request 100 105 (Some 2000%Q)) 5 _)
                2000%Q _ _ _).
  - repeat first [apply SSorted_cons | apply SSorted_nil
                 | apply Forall_cons | apply Forall_nil];
      first [ left; vm_compute; reflexivity
            | right; split; vm_compute; [reflexivity | discriminate] ].
  - reflexivity.
  - vm_compute. discriminate.
  - lia.
Defined.

(** ** The schedules of a trip *)

Lemma range_In (n day : Z) : In day (range n) <-> 0 <= day < n.
Proof.
  unfold range. rewrite in_map_iff. split.
  - intros (i & <- & Hi). apply in_seq in Hi. lia.
  - intro H. exists (Z.to_nat day). split; [lia|]. apply in_seq. lia.
Qed.

Lemma range_nonpositive (n : Z) : n <= 0 -> range n = [].
Proof.
  intro H. unfold range. replace (Z.to_nat n) with 0%nat by lia. reflexivity.
Qed.

(** The schedule built for day [i]. *)
Lemma create_daily_schedules_nth (request : SearchRequest.t)
    (pois : list PointOfInterest.t) (d : Z) (i : nat) :
  (i < Z.to_nat d)%nat ->
  nth_error (PlannerAgent.create_daily_schedules request pois d) i
  = Some
      (let activities :=
         PlannerAgent.select_activities_for_day pois (Z.of_nat i) d in
       DailySchedule.make (SearchRequest.start_date request + Z.of_nat i)
         activities (PlannerAgent.create_free_time_slots activities)
         (Some (PlannerAgent.generate_day_notes activities (Z.of_nat i) d))).
Proof.
  intro H. unfold PlannerAgent.create_daily_schedules.
  now rewrite nth_error_map, (range_nth_error d i H).
Qed.

(** X6.  The schedules carry consecutive dates from [start_date] on; a trip
    length of zero or less gives no schedule; every date lies in
    [start_date, start_date + d), so with [d] the number of nights no
    schedule is dated on the end date. *)
Theorem create_daily_schedules_dates (request : SearchRequest.t)
    (pois : list PointOfInterest.t) (d : Z) :
  map DailySchedule.date (PlannerAgent.create_daily_schedules request pois d)
  = map (fun day => SearchRequest.start_date request + day) (range d)
  /\ (d <= 0 -> PlannerAgent.create_daily_schedules request pois d = [])
  /\ (forall s,
         In s (PlannerAgent.create_daily_schedules request pois d) ->
         SearchRequest.start_date request <= DailySchedule.date s
         < SearchRequest.start_date request + d).
Proof.
  unfold PlannerAgent.create_daily_schedules. split; [|split].
  - rewrite map_map. reflexivity.
  - intro H. now rewrite range_nonpositive.
  - intros s Hs. apply in_map_iff in Hs. destruct Hs as (day & <- & Hd).
    apply range_In in Hd. simpl. lia.
Qed.

Lemma generate_day_notes_middle (activities : list PointOfInterest.t)
    (day d : Z) :
  day <> 0 -> day <> d - 1 ->
  PlannerAgent.generate_day_notes activities day d = full_day_note activities.
Proof.
  intros H0 Hl. unfold PlannerAgent.generate_day_notes.
  apply Z.eqb_neq in H0. apply Z.eqb_neq in Hl. now rewrite H0, Hl.
Qed.

(** X7.  Every day of the trip is planned by its phase.  The first day is
    always the arrival day, also on a trip of one day; the last day of a
    longer trip is the departure day; every other day gets the middle-day
    pick and a note that lists the categories of that pick. *)
Theorem create_daily_schedules_phases (request : SearchRequest.t)
    (pois : list PointOfInterest.t) (d : Z) (i : nat) :
  (i < Z.to_nat d)%nat ->
  exists s,
    nth_error (PlannerAgent.create_daily_schedules request pois d) i = Some s
    /\ (i = 0%nat ->
        DailySchedule.activities s
        = single_pick [FOOD; ENTERTAINMENT; CULTURAL] pois
        /\ DailySchedule.notes s = Some arrival_note)
    /\ (i <> 0%nat -> Z.of_nat i = d - 1 ->
        DailySchedule.activities s
        = single_pick [SHOPPING; FOOD; CULTURAL] pois
        /\ DailySchedule.notes s = Some departure_note)
    /\ (i <> 0%nat -> Z.of_nat i <> d - 1 ->
        DailySchedule.activities s = middle_pick pois
        /\ DailySchedule.notes s = Some (full_day_note (middle_pick pois))).
Proof.
  intro H. eexists. split; [apply create_daily_schedules_nth; exact H|].
  cbv zeta. cbn [DailySchedule.activities DailySchedule.notes].
  split; [|split].
  - intros ->. split; [apply select_activities_arrival | reflexivity].
  - intros H0 Hl. split; [apply select_activities_departure; lia|].
    unfold PlannerAgent.generate_day_notes.
    assert (E0 : (Z.of_nat i =? 0) = false) by (apply Z.eqb_neq; lia).
    rewrite E0, Hl, Z.eqb_refl. reflexivity.
  - intros H0 Hl.
    rewrite select_activities_middle by lia.
    rewrite generate_day_notes_middle by lia. now split.
Qed.

Lemma create_daily_schedules_phases_witness :
  exists s,
    nth_error (PlannerAgent.create_daily_schedules
                 (sample_request 100 101 None) sample_pois 1) 0 = Some s
    /\ map PointOfInterest.name (DailySchedule.activities s)
       = ["Cafe"%string]
    /\ DailySchedule.notes s = Some arrival_note.
Proof.
  destruct (create_daily_schedules_phases (sample_request 100 101 None)
              sample_pois 1 0 ltac:(simpl; lia)) as (s & Hs & H0 & _).
  exists s. split; [exact Hs|].
  destruct (H0 eq_refl) as [Ha Hn]. rewrite Ha. split; [reflexivity|exact Hn].
Defined.

(** X8.  All the middle days of a trip get the same plan: the same
    activities, the same free-time slots and the same note; the schedules
    of two middle days differ in their date only. *)
Theorem middle_days_repeat (request : SearchRequest.t)
    (pois : list PointOfInterest.t) (d : Z) (i j : nat) :
  0 < Z.of_nat i < d - 1 -> 0 < Z.of_nat j < d - 1 ->
  exists s1 s2,
    nth_error (PlannerAgent.create_daily_schedules request pois d) i = Some s1
    /\ nth_error (PlannerAgent.create_daily_schedules request pois d) j
       = Some s2
    /\ day_plan s1 = day_plan s2.
Proof.
  intros Hi Hj. do 2 eexists.
  split; [apply create_daily_schedules_nth; lia|].
  split; [apply create_daily_schedules_nth; lia|].
  cbv zeta. unfold day_plan.
  cbn [DailySchedule.activities DailySchedule.free_time_slots
       DailySchedule.notes].
  rewrite !select_activities_middle by lia.
  rewrite !generate_day_notes_middle by lia. reflexivity.
Qed.

Lemma middle_days_repeat_witness :
  exists s1 s2,
    nth_error (PlannerAgent.create_daily_schedules
                 (sample_request 100 105 None) sample_pois 5) 1 = Some s1
    /\ nth_error (PlannerAgent.create_daily_schedules
                    (sample_request 100 105 None) sample_pois 5) 3 = Some s2
    /\ day_plan s1 = day_plan s2.
Proof.
  apply (middle_days_repeat (sample_request 100 105 None) sample_pois 5 1 3);
    simpl; lia.
Defined.

(** X9.  The free-time slots of a day are none, the afternoon slot alone,
    or the afternoon slot followed by the evening slot: the evening slot
    never comes without the afternoon slot, and there are never more than
    two. *)
Theorem create_free_time_slots_shape (activities : list PointOfInterest.t) :
  PlannerAgent.create_free_time_slots activities = []
  \/ PlannerAgent.create_free_time_slots activities
     = [PlannerAgent.afternoon_slot]
  \/ PlannerAgent.create_free_time_slots activities
     = [PlannerAgent.afternoon_slot; PlannerAgent.evening_slot].
Proof.
  destruct (create_free_time_slots_cases activities) as (_ & H4 & H46 & H6).
  cbv zeta in H4, H46, H6.
  destruct (Qlt_le_dec 4 (PlannerAgent.total_activity_time activities))
    as [L4|L4].
  - destruct (Qlt_le_dec 6 (PlannerAgent.total_activity_time activities))
      as [L6|L6].
    + left. now apply H6.
    + right. left. now apply H46.
  - right. right. now apply H4.
Qed.

(** X10.  Without any point of interest every schedule is empty of
    activities and offers both free-time slots; the note of a middle day
    then reads "Full day of  activities", with nothing between the two
    spaces. *)
Theorem create_daily_schedules_no_pois (request : SearchRequest.t) (d : Z)
    (s : DailySchedule.t) :
  In s (PlannerAgent.create_daily_schedules request [] d) ->
  DailySchedule.activities s = []
  /\ DailySchedule.free_time_slots s
     = [PlannerAgent.afternoon_slot; PlannerAgent.evening_slot]
  /\ (DailySchedule.notes s = Some arrival_note
      \/ DailySchedule.notes s = Some departure_note
      \/ DailySchedule.notes s = Some "Full day of  activities"%string).
Proof.
  unfold PlannerAgent.create_daily_schedules. intro Hs.
  apply in_map_iff in Hs. destruct Hs as (day & <- & _).
  cbn [DailySchedule.activities DailySchedule.free_time_slots
       DailySchedule.notes PlannerAgent.select_activities_for_day].
  split; [reflexivity|]. split; [reflexivity|].
  unfold PlannerAgent.generate_day_notes.
  destruct (day =? 0); [now left|].
  destruct (day =? d - 1); [right; now left | right; right; reflexivity].
Qed.

Lemma create_daily_schedules_no_pois_witness :
  DailySchedule.activities
    (DailySchedule.make 102 []
       [PlannerAgent.afternoon_slot; PlannerAgent.evening_slot]
       (Some "Full day of  activities"%string)) = []
  /\ In (DailySchedule.make 102 []
           [PlannerAgent.afternoon_slot; PlannerAgent.evening_slot]
           (Some "Full day of  activities"%string))
        (PlannerAgent.create_daily_schedules (sample_request 100 105 None)
           [] 5).
Proof.
  assert (Hin : In (DailySchedule.make 102 []
                      [PlannerAgent.afternoon_slot; PlannerAgent.evening_slot]
                      (Some "Full day of  activities"%string))
                   (PlannerAgent.create_daily_schedules
                      (sample_request 100 105 None) [] 5)).
  { right. right. left. reflexivity. }
  split; [|exact Hin].
  exact (proj1 (create_daily_schedules_no_pois _ _ _ Hin)).
Defined.

(** ** What a day's selection looks like *)

(** X11.  A day never gets more than two activities, and the first and the
    last day never more than one: the cut to three entries at the end of
    [select_activities_for_day] removes nothing. *)
Theorem select_activities_at_most_two (pois : list PointOfInterest.t)
    (day d : Z) :
  (List.length (PlannerAgent.select_activities_for_day pois day d) <= 2)%nat
  /\ (day = 0 \/ day = d - 1 ->
      (List.length (PlannerAgent.select_activities_for_day pois day d)
       <= 1)%nat).
Proof.
  assert (H1 : day = 0 \/ day = d - 1 ->
               (List.length (PlannerAgent.select_activities_for_day pois day d)
                <= 1)%nat).
  { intros [->|Hl].
    - rewrite select_activities_arrival. apply single_pick_length.
    - destruct (Z.eq_dec day 0) as [->|H0].
      + rewrite select_activities_arrival. apply single_pick_length.
      + rewrite select_activities_departure by assumption.
        apply single_pick_length. }
  split; [|exact H1].
  destruct (Z.eq_dec day 0) as [H0|H0]; [specialize (H1 (or_introl H0)); lia|].
  destruct (Z.eq_dec day (d - 1)) as [Hl|Hl];
    [specialize (H1 (or_intror Hl)); lia|].
  rewrite select_activities_middle by assumption. apply middle_pick_length.
Qed.

Lemma ActivityType_eqb_eq (a b : ActivityType) :
  ActivityType_eqb a b = true <-> a = b.
Proof. destruct a, b; split; intro H; try reflexivity; discriminate. Qed.

Lemma first_occurrences_In {A : Type} (eqb : A -> A -> bool) (l : list A)
    (a : A) :
  In a (first_occurrences eqb l) -> In a l.
Proof.
  revert a. induction l as [|x l IH]; intros a Ha; simpl in *; trivial.
  destruct Ha as [->|Ha]; [now left|].
  apply filter_In in Ha. right. apply IH, Ha.
Qed.

Lemma first_occurrences_NoDup (l : list ActivityType) :
  NoDup (first_occurrences ActivityType_eqb l).
Proof.
  induction l as [|x l IH]; simpl; constructor.
  - intro H. apply filter_In in H. destruct H as [_ H].
    rewrite (proj2 (ActivityType_eqb_eq x x) eq_refl) in H. discriminate.
  - now apply NoDup_filter.
Qed.

Lemma first_of_category_inv (c : ActivityType)
    (pois : list PointOfInterest.t) (p : PointOfInterest.t) :
  In p (first_of_category c pois) ->
  In p pois /\ PointOfInterest.category p = c.
Proof.
  unfold first_of_category.
  destruct (find (has_category c) pois) as [q|] eqn:E; [|contradiction].
  intros [<-|[]]. apply find_some in E. destruct E as [Hin Hc].
  split; [exact Hin | now apply ActivityType_eqb_eq].
Qed.

Lemma single_pick_In (priorities : list ActivityType)
    (pois : list PointOfInterest.t) (p : PointOfInterest.t) :
  In p (single_pick priorities pois) -> In p pois.
Proof.
  induction priorities as [|c priorities IH]; simpl; [contradiction|].
  destruct (find (has_category c) pois) as [q|] eqn:E; [|exact IH].
  intros [<-|[]]. now apply find_some in E.
Qed.

Lemma NoDup_short {A : Type} (l : list A) :
  (List.length l <= 1)%nat -> NoDup l.
Proof.
  destruct l as [|a [|b l]]; simpl; intro H;
    [constructor | repeat constructor; intros [] | lia].
Qed.

Lemma flat_map_categories_NoDup (pois : list PointOfInterest.t)
    (cats : list ActivityType) :
  NoDup cats ->
  NoDup (map PointOfInterest.category
             (flat_map (fun c => first_of_category c pois) cats)).
Proof.
  induction 1 as [|c cats Hc Hnd IH]; simpl; [constructor|].
  rewrite map_app. unfold first_of_category at 1.
  destruct (find (has_category c) pois) as [q|] eqn:E; simpl; trivial.
  constructor; trivial.
  apply find_some in E. destruct E as [_ Eq].
  apply ActivityType_eqb_eq in Eq. rewrite Eq.
  intro Hin. apply in_map_iff in Hin. destruct Hin as (p & Hp & Hin).
  apply in_flat_map in Hin. destruct Hin as (c' & Hc' & Hin).
  apply first_of_category_inv in Hin. destruct Hin as [_ Hpc].
  apply Hc. congruence.
Qed.

Lemma NoDup_firstn {A : Type} (n : nat) (l : list A) :
  NoDup l -> NoDup (firstn n l).
Proof.
  intro H. rewrite <- (firstn_skipn n l) in H.
  now apply NoDup_app_remove_r in H.
Qed.

(** X12.  The activities chosen for a day are taken from the candidates,
    and no two of them have the same category. *)
Theorem select_activities_distinct_categories
    (pois : list PointOfInterest.t) (day d : Z) :
  (forall p, In p (PlannerAgent.select_activities_for_day pois day d) ->
             In p pois)
  /\ NoDup (map PointOfInterest.category
                (PlannerAgent.select_activities_for_day pois day d)).
Proof.
  destruct (Z.eq_dec day 0) as [->|H0].
  - rewrite select_activities_arrival. split.
    + intro p. apply single_pick_In.
    + apply NoDup_short. rewrite length_map. apply single_pick_length.
  - destruct (Z.eq_dec day (d - 1)) as [Hl|Hl].
    + rewrite select_activities_departure by assumption. split.
      * intro p. apply single_pick_In.
      * apply NoDup_short. rewrite length_map. apply single_pick_length.
    + rewrite select_activities_middle by assumption. unfold middle_pick.
      split.
      * intros p Hp. apply in_flat_map in Hp. destruct Hp as (c & _ & Hp).
        now apply first_of_category_inv in Hp.
      * apply flat_map_categories_NoDup, NoDup_firstn,
          first_occurrences_NoDup.
Qed.

(** ** The schema and the validation against the controller *)

Lemma validate_itinerary_true_schedules (it : Itinerary.t) :
  PlannerAgent.validate_itinerary it = true ->
  Itinerary.hotels it <> []
  /\ Z.of_nat (List.length (Itinerary.daily_schedules it))
     = Itinerary.total_days it.
Proof.
  unfold PlannerAgent.validate_itinerary,
    PlannerAgent.validate_itinerary_logged.
  destruct (Itinerary.hotels it); [discriminate|].
  match goal with |- context [if ?c then _ else _] => destruct c end;
    [discriminate|].
  destruct (Z.of_nat _ =? Itinerary.total_days it) eqn:E;
    [|discriminate].
  intros _. split; [discriminate | now apply Z.eqb_eq].
Qed.

(** X13.  An itinerary that the schema accepts and that passes validation
    has one schedule more than the nights between its dates, hence two
    schedules at least. *)
Theorem valid_itinerary_schedule_count (it : Itinerary.t) :
  Itinerary.valid it = true ->
  PlannerAgent.validate_itinerary it = true ->
  Z.of_nat (List.length (Itinerary.daily_schedules it))
  = Itinerary.end_date it - Itinerary.start_date it + 1
  /\ (2 <= List.length (Itinerary.daily_schedules it))%nat.
Proof.
  unfold Itinerary.valid. intros Hv Ht.
  apply andb_prop in Hv. destruct Hv as [Hd He].
  apply Z.ltb_lt in Hd. apply Z.eqb_eq in He.
  apply validate_itinerary_true_schedules in Ht. destruct Ht as [_ Hs].
  split; lia.
Qed.

Lemma valid_itinerary_schedule_count_witness :
  Z.of_nat (List.length
              (Itinerary.daily_schedules (sample_itinerary (Some 1000%Q))))
  = 101 - 100 + 1
  /\ (2 <= List.length
             (Itinerary.daily_schedules (sample_itinerary (Some 1000%Q))))%nat.
Proof.
  apply (valid_itinerary_schedule_count (sample_itinerary (Some 1000%Q)));
    reflexivity.
Defined.

(** X14.  An itinerary that the schema accepts and whose schedules are those
    [create_daily_schedules] builds for the nights between its dates never
    passes validation: it has one schedule too few. *)
Theorem controller_schedules_fail_validation (it : Itinerary.t)
    (request : SearchRequest.t) (pois : list PointOfInterest.t) :
  Itinerary.valid it = true ->
  Itinerary.daily_schedules it
  = PlannerAgent.create_daily_schedules request pois
      (Itinerary.end_date it - Itinerary.start_date it) ->
  PlannerAgent.validate_itinerary it = false.
Proof.
  intros Hv Hs.
  destruct (PlannerAgent.validate_itinerary it) eqn:Ht; trivial.
  apply validate_itinerary_true_schedules in Ht. destruct Ht as [_ Hn].
  rewrite Hs, create_daily_schedules_length in Hn.
  unfold Itinerary.valid in Hv. apply andb_prop in Hv.
  destruct Hv as [Hd He]. apply Z.ltb_lt in Hd. apply Z.eqb_eq in He. lia.
Qed.

Lemma controller_schedules_fail_validation_witness :
  PlannerAgent.validate_itinerary
    (Itinerary.make "Trip to Los Angeles" "Los Angeles" 100 105 6
       (Some (sample_flight "DL350" 100 210 350))
       (Some (sample_flight "DL420" 100 225 420))
       sample_hotels
       (PlannerAgent.create_daily_schedules (sample_request 100 105 None)
          sample_pois 5)
       None USD (mk_datetime 90 0) (mk_datetime 90 0))
  = false.
Proof.
  apply (controller_schedules_fail_validation _
           (sample_request 100 105 None) sample_pois); reflexivity.
Defined.

(** ** Money *)

Lemma calculate_total_cost_parts (it : Itinerary.t) :
  (PlannerAgent.calculate_total_cost it
   == price_or_zero (Itinerary.outbound_flight it)
      + price_or_zero (Itinerary.return_flight it) + stay_cost it)%Q.
Proof.
  unfold PlannerAgent.calculate_total_cost, stay_cost, scheduled_activities.
  rewrite fold_left_activities, fold_left_Qplus.
  rewrite (map_ext _ _ activity_cost_tier).
  destruct (Itinerary.outbound_flight it), (Itinerary.return_flight it);
    simpl; ring.
Qed.

(** X15.  With a single flight candidate the selection uses it for both
    legs, and an itinerary built on that selection is charged its price
    twice. *)
Theorem single_flight_charged_twice (f : Flight.t)
    (request : SearchRequest.t) (it : Itinerary.t) :
  Itinerary.outbound_flight it
  = fst (PlannerAgent.select_best_flights [f] request) ->
  Itinerary.return_flight it
  = snd (PlannerAgent.select_best_flights [f] request) ->
  Itinerary.outbound_flight it = Some f
  /\ Itinerary.return_flight it = Some f
  /\ (PlannerAgent.calculate_total_cost it
      == 2 * Flight.price f + stay_cost it)%Q.
Proof.
  intros Ho Hr. simpl in Ho, Hr.
  split; [exact Ho|]. split; [exact Hr|].
  rewrite calculate_total_cost_parts, Ho, Hr. simpl. ring.
Qed.

Lemma single_flight_charged_twice_witness :
  Qeq (PlannerAgent.calculate_total_cost
         (Itinerary.make "Trip to Los Angeles" "Los Angeles" 100 101 2
            (Some (sample_flight "DL350" 100 210 350))
            (Some (sample_flight "DL350" 100 210 350))
            [] [] None USD (mk_datetime 90 0) (mk_datetime 90 0)))
      700%Q.
Proof.
  match goal with
  | |- Qeq (PlannerAgent.calculate_total_cost ?it) _ =>
      rewrite (proj2 (proj2
                 (single_flight_charged_twice
                    (sample_flight "DL350" 100 210 350)
                    (sample_request 100 101 None) it eq_refl eq_refl)))
  end.
  reflexivity.
Defined.





(** ** The itinerary constructor and the errors of the composition *)


(** X18.  What [create_itinerary] raises, by the dates of the request.  End
    after start: the day count is refused.  End before start: the end date
    is refused.  End equal to start: the division by zero of the hotel
    filter when there are hotels and a budget other than zero, and the
    refusal of the end date otherwise. *)
Theorem create_itinerary_errors
    (request : SearchRequest.t) (flights : list Flight.t)
    (hotels : list Hotel.t) (pois : list PointOfInterest.t) (now : datetime) :
  let built := PlannerAgent.create_itinerary request flights hotels pois now in
  (SearchRequest.start_date request < SearchRequest.end_date request ->
   built = Raise (ValidationError "total_days"))
  /\ (SearchRequest.end_date request < SearchRequest.start_date request ->
      built = Raise (ValidationError "end_date"))
  /\ (SearchRequest.end_date request = SearchRequest.start_date request ->
      hotels <> [] -> truthy (SearchRequest.budget request) = true ->
      built = Raise ZeroDivisionError)
  /\ (SearchRequest.end_date request = SearchRequest.start_date request ->
      hotels = [] \/ truthy (SearchRequest.budget request) = false ->
      built = Raise (ValidationError "end_date")).
Proof.
  cbv zeta. split; [apply create_itinerary_rejected|].
  unfold PlannerAgent.create_itinerary. split; [|split].
  - intro H.
    destruct (select_best_hotels_returns hotels request
                (SearchRequest.end_date request
                 - SearchRequest.start_date request)) as [sel Hsel]; [lia|].
    rewrite Hsel. unfold bind, Itinerary.init, Itinerary.validate_dates.
    assert (E : (SearchRequest.end_date request
                 <=? SearchRequest.start_date request) = true)
      by (apply Z.leb_le; lia).
    now rewrite E.
  - intros H Hh Hb. rewrite H, Z.sub_diag.
    now rewrite select_best_hotels_zero_days.
  - intros H Hor. rewrite H, Z.sub_diag.
    assert (E : exists sel,
               PlannerAgent.select_best_hotels hotels request 0 = Ok sel).
    { destruct Hor as [->|Hb].
      - now exists [].
      - eexists. now apply select_best_hotels_no_budget. }
    destruct E as [sel Hsel]. rewrite Hsel.
    unfold bind, Itinerary.init, Itinerary.validate_dates.
    now rewrite Z.leb_refl.
Qed.
